(** * web5-js, packages/api/src/tech-preview.ts

    A shallow embedding of the two exported operations of the Tech Preview
    module and of its private helper:

    - [generateDwnConfiguration]: builds the ION create options (two key
      pairs and one DWN service entry) for a list of DWN URLs;
    - [getTechPreviewDwnEndpoints]: fetches the well-known DID document,
      reads its [#dwn] service and health-probes randomly drawn nodes;
    - [getRandomInt]: the index draw.

    The module talks to the outside world through [fetch], [Math.random],
    [console.warn] and two functions of [@web5/dids], the key generator and
    [getServices].  These are the variables of the section below: every
    theorem is proved for all of their behaviours.  A run threads the state
    of that world and records every call it makes, so that the number and
    the targets of the probes can be stated. *)

From Stdlib Require Import QArith Qround.
From stdpp Require Import base strings list gmap pretty.
From Equations Require Import Equations.
From Equations.Prop Require Import Logic.

Set Warnings "-register-all".

(** ** JavaScript values and errors *)

(** A thrown value.  Everything thrown on the paths modelled here is an
    [Error] object; the code reads only its [message]. *)
Record JsError : Type := mkError {
  name    : string;
  message : string
}.

Definition TypeError (msg : string) : JsError := mkError "TypeError" msg.
Definition SyntaxError (msg : string) : JsError := mkError "SyntaxError" msg.
Definition Error (msg : string) : JsError := mkError "Error" msg.

(** What [JSON.parse] can produce, plus [undefined] (the value of a missing
    property or array slot).  An object is a finite map from its own keys. *)
Inductive JsValue : Type :=
| JsUndefined
| JsNull
| JsBoolean (b : bool)
| JsNumber (n : Q)
| JsString (s : string)
| JsArray (elems : list JsValue)
| JsObject (props : gmap string JsValue).

(** [Array.isArray(v)] *)
Definition Array_isArray (v : JsValue) : bool :=
  match v with
  | JsArray _ => true
  | _ => false
  end.

(** [typeof v], for the values above. *)
Definition typeof (v : JsValue) : string :=
  match v with
  | JsUndefined => "undefined"
  | JsNull => "object"
  | JsBoolean _ => "boolean"
  | JsNumber _ => "number"
  | JsString _ => "string"
  | JsArray _ => "object"
  | JsObject _ => "object"
  end.

(** [key in v].  The operator throws a [TypeError] when its right operand is
    not an object.  The keys asked for by this module ([serviceEndpoint]) are
    neither array indices nor names found on [Object.prototype] or
    [Array.prototype], so only own keys of objects answer [true]. *)
Definition js_in (key : string) (v : JsValue) : JsError + bool :=
  match v with
  | JsObject props => inr (bool_decide (is_Some (props !! key)))
  | JsArray _ => inr false
  | _ => inl (TypeError ("Cannot use 'in' operator to search for '" +:+ key +:+ "'"))
  end.

(** [v.key].  Reading a property of [undefined] or [null] throws a
    [TypeError]; on every other value a name that is not found yields
    [undefined].  As for [js_in], the keys read by this module
    ([serviceEndpoint], [nodes]) are not inherited from any prototype. *)
Definition js_get (v : JsValue) (key : string) : JsError + JsValue :=
  match v with
  | JsUndefined | JsNull =>
      inl (TypeError ("Cannot read properties of " +:+
                      (if v is JsNull then "null" else "undefined") +:+
                      " (reading '" +:+ key +:+ "')"))
  | JsObject props => inr (default JsUndefined (props !! key))
  | _ => inr JsUndefined
  end.

(** The strings of an array all of whose elements are strings. *)
Fixpoint stringArray (elems : list JsValue) : option (list string) :=
  match elems with
  | [] => Some []
  | JsString s :: rest => cons s <$> stringArray rest
  | _ :: _ => None
  end.

(** ** Numbers

    [Math.random()] returns a binary64 number in [[0, 1)].  Every such
    number is [mant / 2^scale] for integers [0 <= mant < 2^53] and
    [0 <= scale <= 1074]. *)
Record Double : Type := mkDouble {
  mant  : Z;
  scale : Z
}.

Definition inUnitInterval (d : Double) : Prop :=
  (0 <= mant d < 2 ^ 53)%Z /\ (0 <= scale d <= 1074)%Z /\ (mant d < 2 ^ scale d)%Z.

(** The non-negative integer [P] rounded to 53 significant bits, to nearest
    and ties to even: the rounding of binary64 arithmetic. *)
Definition round53 (P : Z) : Z :=
  let shift := (Z.log2 P - 52)%Z in
  if (shift <=? 0)%Z then P
  else
    let q := (P / 2 ^ shift)%Z in
    let rem := (P mod 2 ^ shift)%Z in
    let half := (2 ^ (shift - 1))%Z in
    let up := (half <? rem)%Z || ((rem =? half)%Z && Z.odd q) in
    ((if up then q + 1 else q) * 2 ^ shift)%Z.

(** [r * n] in binary64 arithmetic, for [r] as above and an integer [n] of
    magnitude below [2^53]: the exact product [mant * n / 2^scale] rounded.
    When the product needs rounding it is at least [2^53 / 2^1074], a normal
    number, so 53 bits is its precision. *)
Definition multiply (r : Double) (n : Z) : Q :=
  (Z.sgn n * round53 (mant r * Z.abs n)) # Z.to_pos (2 ^ scale r).

(** ** HTTP responses *)

(** A [Response] as this module reads it: the status line and what
    [response.json()] settles to. *)
Record Response : Type := mkResponse {
  status     : N;
  statusText : string;
  json       : JsError + JsValue
}.

(** [response.ok]: the status is in the range 200-299 (Fetch standard). *)
Definition ok (response : Response) : bool :=
  (200 <=? status response)%N && (status response <=? 299)%N.

(** ** Key generation requests and the configuration *)

(** The argument of [DidIonMethod.generateJwkKeyPair]. *)
Record KeyGenOptions : Type := mkKeyGenOptions {
  keyAlgorithm : string;
  keyId        : string
}.

(** The [serviceEndpoint] object written by [generateDwnConfiguration]. *)
Record DwnServiceEndpoint : Type := mkDwnServiceEndpoint {
  nodes          : list string;
  signingKeys    : list string;
  encryptionKeys : list string
}.

Module DidService.
Record t : Type := mk {
  id              : string;
  type            : string;
  serviceEndpoint : DwnServiceEndpoint
}.
End DidService.

(** [{ ...keyPair, relationships }]: the generated pair with the
    [relationships] property added to it. *)
Record VerificationMethodKey (JwkKeyPair : Type) : Type := mkVerificationMethodKey {
  keyPair       : JwkKeyPair;
  relationships : list string
}.
Arguments mkVerificationMethodKey {JwkKeyPair} _ _.
Arguments keyPair {JwkKeyPair} _.
Arguments relationships {JwkKeyPair} _.

Record DidIonKeySet (JwkKeyPair : Type) : Type := mkDidIonKeySet {
  verificationMethodKeys : list (VerificationMethodKey JwkKeyPair)
}.
Arguments mkDidIonKeySet {JwkKeyPair} _.
Arguments verificationMethodKeys {JwkKeyPair} _.

Record DidIonCreateOptions (JwkKeyPair : Type) : Type := mkDidIonCreateOptions {
  keySet   : DidIonKeySet JwkKeyPair;
  services : list DidService.t
}.
Arguments mkDidIonCreateOptions {JwkKeyPair} _ _.
Arguments keySet {JwkKeyPair} _.
Arguments services {JwkKeyPair} _.

(** The [options] argument of [generateDwnConfiguration]. *)
Record DwnConfigurationOptions : Type := mkDwnConfigurationOptions {
  dwnUrls : list string
}.

(** ** Runs *)

(** The calls a run makes to the outside world, in the order it makes them,
    each with what the world answered. *)
Inductive Event : Type :=
| EvGenerateJwkKeyPair (options : KeyGenOptions) (succeeded : bool)
| EvFetch (url : string) (answer : JsError + Response)
| EvMathRandom (r : Double)
| EvConsoleWarn (args : list string).

(** How an [async] function ends: its promise is fulfilled with a value or
    rejected with the thrown error.  [OutsideModel] marks the runs this
    development does not follow, those whose candidates are not all strings:
    a [nodes] array holding another kind of value, or a read outside of the
    array, which yields [undefined].  The code declares the candidates to be
    strings ([Set<string>], [Promise<string[]>]). *)
Inductive Outcome (A : Type) : Type :=
| Fulfilled (value : A)
| Rejected (reason : JsError)
| OutsideModel.
Arguments Fulfilled {A} _.
Arguments Rejected {A} _.
Arguments OutsideModel {A}.

(** A [Set<string>]: its elements in insertion order, without repetition. *)
Definition StringSet : Type := list string.

(** [set.add(x)] *)
Definition Set_add (x : string) (set : StringSet) : StringSet :=
  if decide (x ∈ set) then set else set ++ [x].

(** [array[i]] for a number [i] that is an integer: [None] is [undefined]. *)
Definition arrayGet {A : Type} (array : list A) (i : Z) : option A :=
  if (i <? 0)%Z then None else array !! Z.to_nat i.

(** The URLs fetched during a run, oldest first. *)
Definition fetched (events : list Event) : list string :=
  omap (fun e => if e is EvFetch url _ then Some url else None) events.

(** The key generation requests of a run, oldest first. *)
Definition keyRequests (events : list Event) : list KeyGenOptions :=
  omap (fun e => if e is EvGenerateJwkKeyPair o _ then Some o else None) events.

(** The state threaded through a run: the state of the world and the log
    of the calls made so far. *)
Record RunState (World : Type) : Type := mkRunState {
  world  : World;
  events : list Event
}.
Arguments mkRunState {World} _ _.
Arguments world {World} _.
Arguments events {World} _.

(** The fixed constants of the module. *)
Definition wellKnownUrl : string := "https://dwn.tbddev.org/.well-known/did.json".
Definition warnPrefix : string := "failed to get tech preview dwn endpoints:".

(** ** Type introspection utilities

    The three helpers of the second source file: [isArrayBufferSlice],
    [isDefined] and [universalTypeOf]. *)

(** An [ArrayBuffer] and a view on it, as [isArrayBufferSlice] reads them:
    byte counts only. *)
Module ArrayBuffer.
Record t : Type := mk {
  byteLength : N
}.
End ArrayBuffer.

Module ArrayBufferView.
Record t : Type := mk {
  buffer     : ArrayBuffer.t;
  byteOffset : N;
  byteLength : N
}.
End ArrayBufferView.

(** [byteOffset !== 0 || byteLength !== buffer.byteLength] *)
Definition isArrayBufferSlice (arrayBufferView : ArrayBufferView.t) : bool :=
  negb (ArrayBufferView.byteOffset arrayBufferView =? 0)%N
  || negb (ArrayBufferView.byteLength arrayBufferView
           =? ArrayBuffer.byteLength (ArrayBufferView.buffer arrayBufferView))%N.

(** What the platform guarantees of a view: it lies within its buffer. *)
Definition withinBuffer (arrayBufferView : ArrayBufferView.t) : Prop :=
  (ArrayBufferView.byteOffset arrayBufferView + ArrayBufferView.byteLength arrayBufferView
   <= ArrayBuffer.byteLength (ArrayBufferView.buffer arrayBufferView))%N.

(** [v === null] *)
Definition strictEqualsNull (v : JsValue) : bool :=
  match v with
  | JsNull => true
  | _ => false
  end.

(** [arg !== null && typeof arg !== 'undefined'] *)
Definition isDefined (arg : JsValue) : bool :=
  negb (strictEqualsNull arg) && negb (String.eqb (typeof arg) "undefined").

(** The class of a character for the pattern [/\s([a-zA-Z0-9]+)/].  A
    character of a [string] stands for the UTF-16 code unit of the same
    number; of the white space of ECMAScript, the code units below 256 are
    tab, line feed, vertical tab, form feed, carriage return, space and the
    no-break space. *)
Definition isWhiteSpace (c : Ascii.ascii) : bool :=
  let n := Ascii.N_of_ascii c in
  ((9 <=? n) && (n <=? 13) || (n =? 32) || (n =? 160))%N.

Definition isAlphaNumeric (c : Ascii.ascii) : bool :=
  let n := Ascii.N_of_ascii c in
  ((48 <=? n) && (n <=? 57) || (65 <=? n) && (n <=? 90) || (97 <=? n) && (n <=? 122))%N.

(** What the greedy group [([a-zA-Z0-9]+)] takes at the head of a string:
    its longest alphanumeric prefix (empty when the group cannot match). *)
Fixpoint alphaNumericRun (s : string) : string :=
  match s with
  | String c rest => if isAlphaNumeric c then String c (alphaNumericRun rest) else EmptyString
  | EmptyString => EmptyString
  end.

(** [typeString.match(/\s([a-zA-Z0-9]+)/)]: the leftmost white space
    character that is followed by an alphanumeric one starts the match.  The
    result is the array of the whole match and of the group, or [null]. *)
Fixpoint String_match_type (typeString : string) : option (string * string) :=
  match typeString with
  | EmptyString => None
  | String c rest =>
      if isWhiteSpace c && negb (String.eqb (alphaNumericRun rest) EmptyString)
      then Some (String c (alphaNumericRun rest), alphaNumericRun rest)
      else String_match_type rest
  end.

(** All characters of a string are alphanumeric. *)
Fixpoint allAlphaNumeric (s : string) : bool :=
  match s with
  | String c rest => isAlphaNumeric c && allAlphaNumeric rest
  | EmptyString => true
  end.

(** Lines 75 to 79 of [universalTypeOf], from the value of [typeString]:
    the match, then [const [_, type] = match], which throws a [TypeError]
    when the match is [null]. *)
Definition typeOfTypeString (typeString : string) : JsError + string :=
  match String_match_type typeString with
  | Some (_, type) => inr type
  | None => inl (TypeError "match is not iterable")
  end.

(** The built-in tag of [Object.prototype.toString] for the values above,
    none of which carries a [Symbol.toStringTag]. *)
Definition builtinTag (value : JsValue) : string :=
  match value with
  | JsUndefined => "Undefined"
  | JsNull => "Null"
  | JsBoolean _ => "Boolean"
  | JsNumber _ => "Number"
  | JsString _ => "String"
  | JsArray _ => "Array"
  | JsObject _ => "Object"
  end.

(** [Object.prototype.toString.call(value)] *)
Definition Object_prototype_toString (value : JsValue) : string :=
  "[object " +:+ builtinTag value +:+ "]".

Definition universalTypeOf (value : JsValue) : JsError + string :=
  let typeString := Object_prototype_toString value in
  typeOfTypeString typeString.

(** ** Concrete worlds

    Small worlds on which the statements below are exercised.  The state of
    such a world is a clock, the number of calls it has answered. *)
Module Scenario.

(** A key pair reduced to the identifier it carries and a serial number. *)
Definition JwkKeyPair : Type := string * nat.

Definition kid (keyPair : JwkKeyPair) : string := fst keyPair.

(** A generator that always succeeds. *)
Definition generateJwkKeyPair (options : KeyGenOptions) (clock : nat)
  : (JsError + JwkKeyPair) * nat :=
  (inr (keyId options, clock), S clock).

(** A generator whose first call succeeds and whose later calls fail. *)
Definition generateOnce (options : KeyGenOptions) (clock : nat)
  : (JsError + JwkKeyPair) * nat :=
  match clock with
  | 0 => (inr (keyId options, clock), S clock)
  | _ => (inl (Error "unsupported algorithm"), S clock)
  end.

Definition hasString (props : gmap string JsValue) (key value : string) : bool :=
  match props !! key with
  | Some (JsString s) => String.eqb s value
  | _ => false
  end.

(** Modelled from the spec: [didUtils.getServices] is part of [@web5/dids],
    which is not among the sources.  Section 4.2, step 2: locate the
    service descriptors whose identifier equals the given fragment and
    whose type equals the given tag (the caller keeps the first); a
    document without any yields none. *)
Definition getServices (didDocument : JsValue) (id type : string)
  : JsError + list JsValue :=
  match didDocument with
  | JsObject props =>
      match props !! "service" with
      | Some (JsArray services) =>
          inr (List.filter
                 (fun service =>
                    match service with
                    | JsObject p => hasString p "id" id && hasString p "type" type
                    | _ => false
                    end)
                 services)
      | _ => inr []
      end
  | _ => inr []
  end.

(** A [#dwn] service with the given [serviceEndpoint], and a document
    holding just that service. *)
Definition dwnService (endpoint : JsValue) : gmap string JsValue :=
  {[ "id" := JsString "#dwn";
     "type" := JsString "DecentralizedWebNode";
     "serviceEndpoint" := endpoint ]}.

Definition didDocument (endpoint : JsValue) : JsValue :=
  JsObject {[ "id" := JsString "did:web:dwn.tbddev.org";
              "service" := JsArray [JsObject (dwnService endpoint)] ]}.

Definition endpointOf (dwnUrls : list string) : gmap string JsValue :=
  {[ "nodes" := JsArray (JsString <$> dwnUrls) ]}.

Definition fiveNodes : list string :=
  ["https://dwn1.example"; "https://dwn2.example"; "https://dwn3.example";
   "https://dwn4.example"; "https://dwn5.example"].

Definition threeNodes : list string :=
  ["https://dwn1.example"; "https://dwn2.example"; "https://dwn3.example"].

(** A document that declares no service at all. *)
Definition bareDocument : JsValue :=
  JsObject {[ "id" := JsString "did:web:dwn.tbddev.org" ]}.

(** Every request is answered [200 OK]; the body parses to [document]. *)
Definition fetchOk (document : JsValue) (url : string) (clock : nat)
  : (JsError + Response) * nat :=
  (inr (mkResponse 200 "OK" (inr document)), S clock).

(** Every request is answered [200 OK] with a body that is not JSON. *)
Definition fetchGarbage (url : string) (clock : nat) : (JsError + Response) * nat :=
  (inr (mkResponse 200 "OK" (inl (SyntaxError "Unexpected token < in JSON"))), S clock).

(** Every request is answered [500]. *)
Definition fetchServerError (url : string) (clock : nat) : (JsError + Response) * nat :=
  (inr (mkResponse 500 "Internal Server Error" (inl (SyntaxError "Unexpected end of JSON input"))),
   S clock).

(** The document is served; of the nodes only [dwn1] is up: the probes of
    [dwn2] are rejected and all others are answered [503]. *)
Definition fetchOneUp (document : JsValue) (url : string) (clock : nat)
  : (JsError + Response) * nat :=
  if String.eqb url wellKnownUrl then (inr (mkResponse 200 "OK" (inr document)), S clock)
  else if String.eqb url "https://dwn1.example/health"
       then (inr (mkResponse 200 "OK" (inr (JsString "ok"))), S clock)
       else if String.eqb url "https://dwn2.example/health"
            then (inl (TypeError "fetch failed"), S clock)
            else (inr (mkResponse 503 "Service Unavailable" (inr JsNull)), S clock).

(** The state before the first call. *)
Definition start : RunState nat := mkRunState 0 [].

(** The document listing a given array of nodes, and the state of a world
    served by [fetchOk] or [fetchOneUp] once that document is fetched. *)
Definition listing (dwnUrls : list string) : JsValue :=
  didDocument (JsObject (endpointOf dwnUrls)).

Definition fetchedListing (dwnUrls : list string) : RunState nat :=
  mkRunState 1 [EvFetch wellKnownUrl (inr (mkResponse 200 "OK" (inr (listing dwnUrls))))].

(** [Math.random()] always answers 0. *)
Definition randomZero (clock : nat) : Double * nat := (mkDouble 0 0, S clock).

(** The binary64 numbers [0.8] and [1 - 2^-53], the largest below 1. *)
Definition fourFifths : Double := mkDouble 7205759403792794 53.
Definition almostOne : Double := mkDouble (2 ^ 53 - 1) 53.

(** [Math.random()] answers 0 and 0.8 in turn.  A round of the loop moves
    the clock by two, one call to [Math.random] and one to [fetch]. *)
Definition randomSwing (clock : nat) : Double * nat :=
  (if Nat.even (clock / 2) then mkDouble 0 0 else fourFifths, S clock).

(** Two nodes that are both down in the world of [fetchOneUp], and the one
    node that is up. *)
Definition downNodes : list string :=
  ["https://dwn2.example"; "https://dwn3.example"].

Definition upNode : list string := ["https://dwn1.example"].

(** A document whose [#dwn] service has no [serviceEndpoint]. *)
Definition serviceWithoutEndpoint : gmap string JsValue :=
  {[ "id" := JsString "#dwn"; "type" := JsString "DecentralizedWebNode" ]}.

Definition documentWithoutEndpoint : JsValue :=
  JsObject {[ "service" := JsArray [JsObject serviceWithoutEndpoint] ]}.

(** A view on the whole of a buffer of 16 bytes, and a view on its bytes 4
    to 11. *)
Definition wholeView : ArrayBufferView.t :=
  ArrayBufferView.mk (ArrayBuffer.mk 16) 0 16.

Definition partialView : ArrayBufferView.t :=
  ArrayBufferView.mk (ArrayBuffer.mk 16) 4 8.

End Scenario.

Section TechPreview.

(** *** The outside world *)

Variable World : Type.

(** The key pair type of [@web5/dids], opaque here. *)
Variable JwkKeyPair : Type.

(** [DidIonMethod.generateJwkKeyPair]: fulfils with a key pair or rejects. *)
Variable generateJwkKeyPair :
  KeyGenOptions -> World -> (JsError + JwkKeyPair) * World.

(** The identifier ([kid]) carried by a generated pair. *)
Variable kid : JwkKeyPair -> string.

(** [fetch(url)]: fulfils with a response (of any status) or rejects. *)
Variable fetch : string -> World -> (JsError + Response) * World.

(** [Math.random()] *)
Variable Math_random : World -> Double * World.

(** [didUtils.getServices({ didDocument, id, type })] of [@web5/dids]. *)
Variable getServices : JsValue -> string -> string -> JsError + list JsValue.

(** *** The monad of runs *)

Definition Async (A : Type) : Type := RunState World -> Outcome A * RunState World.

Definition ret {A} (a : A) : Async A := fun s => (Fulfilled a, s).

Definition bind {A B} (m : Async A) (k : A -> Async B) : Async B :=
  fun s =>
    match m s with
    | (Fulfilled a, s') => k a s'
    | (Rejected e, s') => (Rejected e, s')
    | (OutsideModel, s') => (OutsideModel, s')
    end.

(** [throw e] *)
Definition throw {A} (e : JsError) : Async A := fun s => (Rejected e, s).

Definition outsideModel {A} : Async A := fun s => (OutsideModel, s).

(** [try { m } catch (error) { handler error }] *)
Definition try_catch {A} (m : Async A) (handler : JsError -> Async A) : Async A :=
  fun s =>
    match m s with
    | (Rejected e, s') => handler e s'
    | r => r
    end.

(** A synchronous operation that may throw. *)
Definition lift {A} (r : JsError + A) : Async A :=
  match r with
  | inl e => throw e
  | inr a => ret a
  end.

(** [await effect]: ask the world, log the call, settle. *)
Definition await {A} (effect : World -> (JsError + A) * World)
           (log : JsError + A -> Event) : Async A :=
  fun s =>
    let '(answer, w) := effect (world s) in
    let s' := mkRunState w (events s ++ [log answer]) in
    match answer with
    | inl e => (Rejected e, s')
    | inr a => (Fulfilled a, s')
    end.

Notation "x <- m ;; k" := (bind m (fun x => k))
  (at level 100, m at next level, right associativity).
Notation "m ;;; k" := (bind m (fun _ => k))
  (at level 100, right associativity).

Definition await_generateJwkKeyPair (options : KeyGenOptions) : Async JwkKeyPair :=
  await (generateJwkKeyPair options)
        (fun r => EvGenerateJwkKeyPair options (if r is inr _ then true else false)).

Definition await_fetch (url : string) : Async Response :=
  await (fetch url) (EvFetch url).

Definition call_Math_random : Async Double :=
  fun s =>
    let '(r, w) := Math_random (world s) in
    (Fulfilled r, mkRunState w (events s ++ [EvMathRandom r])).

Definition console_warn (args : list string) : Async unit :=
  fun s => (Fulfilled tt, mkRunState (world s) (events s ++ [EvConsoleWarn args])).

(** *** generateDwnConfiguration *)

Definition generateDwnConfiguration (options : DwnConfigurationOptions)
  : Async (DidIonCreateOptions JwkKeyPair) :=
  let dwnUrls := dwnUrls options in
  signingKeyPair <- await_generateJwkKeyPair
                      (mkKeyGenOptions "Ed25519" "#dwn-sig") ;;
  encryptionKeyPair <- await_generateJwkKeyPair
                         (mkKeyGenOptions "Ed25519" "#dwn-enc") ;;
  let keySet := mkDidIonKeySet
    [ mkVerificationMethodKey signingKeyPair ["authentication"];
      mkVerificationMethodKey encryptionKeyPair ["keyAgreement"] ] in
  let services :=
    [ DidService.mk "#dwn" "DecentralizedWebNode"
        (mkDwnServiceEndpoint dwnUrls ["#dwn-sig"] ["#dwn-enc"]) ] in
  ret (mkDidIonCreateOptions keySet services).

(** *** getRandomInt *)

(** [Math.floor(r * (max - min)) + min] after [min = Math.ceil(min)] and
    [max = Math.floor(max)], for the value [r] returned by [Math.random()].
    The product is the rounded one of binary64 arithmetic.  The difference
    and the sum are those of integers: they are the ones of binary64
    arithmetic as long as the rounded bounds and their difference do not
    exceed [2^53] in magnitude, as in the call [getRandomInt(0, length)] of
    the loop; beyond that this definition does not follow the code. *)
Definition randomInt (min max : Q) (r : Double) : Z :=
  let min := Qceiling min in
  let max := Qfloor max in
  (Qfloor (multiply r (max - min)) + min)%Z.

Definition getRandomInt (min max : Q) : Async Z :=
  r <- call_Math_random ;;
  ret (randomInt min max r).

(** *** getTechPreviewDwnEndpoints *)

(** [a && b], where evaluating either operand may throw. *)
Definition and_then (a b : Async bool) : Async bool :=
  x <- a ;; if x then b else ret false.

(** The array length as the number passed to [getRandomInt]. *)
Definition lengthQ {A} (array : list A) : Q := inject_Z (Z.of_nat (length array)).

(** One round of the loop body: draw an index, probe the node's [/health]
    and add the node to the set when the probe answers with an ok status.
    A probe that rejects is caught and ignored. *)
Definition probeNode (dwnUrls : list string) (techPreviewEndpoints : StringSet)
  : Async StringSet :=
  nodeIdx <- getRandomInt 0 (lengthQ dwnUrls) ;;
  match arrayGet dwnUrls nodeIdx with
  | None => outsideModel
  | Some dwnUrl =>
      try_catch
        (healthCheck <- await_fetch (dwnUrl +:+ "/health") ;;
         if ok healthCheck
         then ret (Set_add dwnUrl techPreviewEndpoints)
         else ret techPreviewEndpoints)
        (fun _ => ret techPreviewEndpoints)
  end.

(** The loop test
    [attempts < dwnUrls.length && techPreviewEndpoints.size < numNodesToAllocate]. *)
Definition loopTest (dwnUrls : list string) (numNodesToAllocate attempts : nat)
           (techPreviewEndpoints : StringSet) : bool :=
  bool_decide (attempts < length dwnUrls)
  && bool_decide (length techPreviewEndpoints < numNodesToAllocate).

(** The [for] loop, from the values of [attempts] and of the set at the
    loop head.  It returns both at the exit.  The recursion is on the
    attempts left, [dwnUrls.length - attempts]. *)
Equations? probeLoop (dwnUrls : list string) (numNodesToAllocate attempts : nat)
           (techPreviewEndpoints : StringSet) (s : RunState World)
  : Outcome (nat * StringSet) * RunState World
  by wf (length dwnUrls - attempts) lt :=
  probeLoop dwnUrls numNodesToAllocate attempts techPreviewEndpoints s with
    inspect (loopTest dwnUrls numNodesToAllocate attempts techPreviewEndpoints) := {
    | exist _ true Htest with probeNode dwnUrls techPreviewEndpoints s := {
        | (Fulfilled techPreviewEndpoints', s') :=
            probeLoop dwnUrls numNodesToAllocate (S attempts) techPreviewEndpoints' s';
        | (Rejected e, s') := (Rejected e, s');
        | (OutsideModel, s') := (OutsideModel, s') };
    | exist _ false Htest := (Fulfilled (attempts, techPreviewEndpoints), s) }.
Proof.
  apply andb_prop in Htest as [Hlt _].
  apply bool_decide_eq_true in Hlt. lia.
Qed.

Definition getTechPreviewDwnEndpoints : Async (list string) :=
  early <- try_catch
    (response <- await_fetch wellKnownUrl ;;
     if negb (ok response)
     then throw (Error ("HTTP Error: " +:+ pretty (status response) +:+ " "
                        +:+ statusText response))
     else ret (inr response))
    (fun error =>
       console_warn [warnPrefix; message error] ;;;
       ret (inl [])) ;;
  match early with
  | inl nothing => ret nothing
  | inr response =>
      didDocument <- lift (json response) ;;
      found <- lift (getServices didDocument "#dwn" "DecentralizedWebNode") ;;
      let dwnService := default JsUndefined (head found) in
      let techPreviewEndpoints : StringSet := [] in
      usable <-
        and_then (lift (js_in "serviceEndpoint" dwnService))
       (and_then (serviceEndpoint <- lift (js_get dwnService "serviceEndpoint") ;;
                  ret (negb (Array_isArray serviceEndpoint)))
       (and_then (serviceEndpoint <- lift (js_get dwnService "serviceEndpoint") ;;
                  ret (negb (String.eqb (typeof serviceEndpoint) "string")))
                 (serviceEndpoint <- lift (js_get dwnService "serviceEndpoint") ;;
                  nodes <- lift (js_get serviceEndpoint "nodes") ;;
                  ret (Array_isArray nodes)))) ;;
      if usable then
        serviceEndpoint <- lift (js_get dwnService "serviceEndpoint") ;;
        nodes <- lift (js_get serviceEndpoint "nodes") ;;
        match nodes with
        | JsArray elems =>
            match stringArray elems with
            | Some dwnUrls =>
                let numNodesToAllocate := Nat.min (length dwnUrls) 2 in
                exit <- probeLoop dwnUrls numNodesToAllocate 0 techPreviewEndpoints ;;
                ret (snd exit)
            | None => outsideModel
            end
        | _ => outsideModel
        end
      else ret techPreviewEndpoints
  end.

(** *** Vocabulary of the statements *)

(** [Math.random()] answers with a number in [[0, 1)], as ECMAScript
    requires. *)
Definition randomInRange : Prop :=
  forall w, inUnitInterval (fst (Math_random w)).

(** A settled probe counts when it fulfilled with an ok status. *)
Definition healthy (answer : JsError + Response) : bool :=
  match answer with
  | inr healthCheck => ok healthCheck
  | inl _ => false
  end.

(** One round of the loop as the log of a run shows it: the number drawn,
    the node it selected and what the probe of that node settled to. *)
Record Probe : Type := mkProbe {
  drawn  : Double;
  target : string;
  answer : JsError + Response
}.

Definition probeEvents (p : Probe) : list Event :=
  [EvMathRandom (drawn p); EvFetch (target p +:+ "/health") (answer p)].

(** The effect of one logged round on the set. *)
Definition collect (set : StringSet) (p : Probe) : StringSet :=
  if healthy (answer p) then Set_add (target p) set else set.

(** Steps 1 to 3 succeed from state [s]: the well-known document is
    fetched with an ok status, parses, its first [#dwn] service has an
    object [serviceEndpoint] whose [nodes] is the array of strings
    [dwnUrls]; [s1] is the state after the fetch. *)
Definition discovers (s : RunState World) (dwnUrls : list string)
           (s1 : RunState World) : Prop :=
  exists response w1 didDocument service others endpoint elems,
    fetch wellKnownUrl (world s) = (inr response, w1)
    /\ ok response = true
    /\ json response = inr didDocument
    /\ getServices didDocument "#dwn" "DecentralizedWebNode"
       = inr (JsObject service :: others)
    /\ service !! "serviceEndpoint" = Some (JsObject endpoint)
    /\ endpoint !! "nodes" = Some (JsArray elems)
    /\ stringArray elems = Some dwnUrls
    /\ s1 = mkRunState w1 (events s ++ [EvFetch wellKnownUrl (inr response)]).

(** Every probe of a listed node fulfils with an ok status. *)
Definition allHealthy (dwnUrls : list string) : Prop :=
  forall dwnUrl w, dwnUrl ∈ dwnUrls ->
    exists healthCheck w',
      fetch (dwnUrl +:+ "/health") w = (inr healthCheck, w') /\ ok healthCheck = true.

(** ** Properties *)

(** *** generateDwnConfiguration *)

Definition signingRequest : KeyGenOptions := mkKeyGenOptions "Ed25519" "#dwn-sig".
Definition encryptionRequest : KeyGenOptions := mkKeyGenOptions "Ed25519" "#dwn-enc".

(** The configuration assembled from two generated pairs. *)
Definition configurationOf (options : DwnConfigurationOptions)
           (signingKeyPair encryptionKeyPair : JwkKeyPair)
  : DidIonCreateOptions JwkKeyPair :=
  mkDidIonCreateOptions
    (mkDidIonKeySet
       [ mkVerificationMethodKey signingKeyPair ["authentication"];
         mkVerificationMethodKey encryptionKeyPair ["keyAgreement"] ])
    [ DidService.mk "#dwn" "DecentralizedWebNode"
        (mkDwnServiceEndpoint (dwnUrls options) ["#dwn-sig"] ["#dwn-enc"]) ].

(** When both generator calls fulfil, the run fulfils with the assembled
    configuration, after exactly these two calls. *)
Lemma generateDwnConfiguration_run options s signingKeyPair w1 encryptionKeyPair w2 :
  generateJwkKeyPair signingRequest (world s) = (inr signingKeyPair, w1) ->
  generateJwkKeyPair encryptionRequest w1 = (inr encryptionKeyPair, w2) ->
  generateDwnConfiguration options s =
    (Fulfilled (configurationOf options signingKeyPair encryptionKeyPair),
     mkRunState w2 ((events s ++ [EvGenerateJwkKeyPair signingRequest true])
                    ++ [EvGenerateJwkKeyPair encryptionRequest true])).
Proof.
  intros Hsig Henc. unfold signingRequest, encryptionRequest in *.
  unfold generateDwnConfiguration, bind, await_generateJwkKeyPair, await.
  rewrite Hsig. cbn [world events]. by rewrite Henc.
Qed.

(** The generator labels a pair with the identifier it was asked for
    (spec, section 6: the collaborator yields a key reference for the
    given label). *)
Definition labelsKeys : Prop :=
  forall options w keyPair w',
    generateJwkKeyPair options w = (inr keyPair, w') -> kid keyPair = keyId options.

(** C1. For every list of URLs, the empty one included, a run whose two
    key generations succeed returns a configuration with exactly one
    service, of type DecentralizedWebNode, whose nodes are the input list
    itself, with exactly two keys, and whose signingKeys and encryptionKeys
    are the one-element lists of the identifier of the first and of the
    second key. *)
Theorem generateDwnConfiguration_contents options s signingKeyPair w1 encryptionKeyPair w2 :
  labelsKeys ->
  generateJwkKeyPair signingRequest (world s) = (inr signingKeyPair, w1) ->
  generateJwkKeyPair encryptionRequest w1 = (inr encryptionKeyPair, w2) ->
  exists configuration s' service,
    generateDwnConfiguration options s = (Fulfilled configuration, s')
    /\ services configuration = [service]
    /\ DidService.type service = "DecentralizedWebNode"
    /\ nodes (DidService.serviceEndpoint service) = dwnUrls options
    /\ keyPair <$> verificationMethodKeys (keySet configuration)
       = [signingKeyPair; encryptionKeyPair]
    /\ signingKeys (DidService.serviceEndpoint service) = [kid signingKeyPair]
    /\ encryptionKeys (DidService.serviceEndpoint service) = [kid encryptionKeyPair].
Proof.
  intros Hkid Hsig Henc.
  eexists _, _, _. split; first by apply (generateDwnConfiguration_run _ _ _ _ _ _ Hsig Henc).
  rewrite (Hkid _ _ _ _ Hsig), (Hkid _ _ _ _ Henc). by repeat split.
Qed.

(** C4. The operation is all or nothing: when the first key generation
    rejects, or the first fulfils and the second rejects, the run rejects
    with that very error and returns no configuration. *)
Theorem generateDwnConfiguration_all_or_nothing options s e :
  (exists w1, generateJwkKeyPair signingRequest (world s) = (inl e, w1))
  \/ (exists signingKeyPair w1 w2,
        generateJwkKeyPair signingRequest (world s) = (inr signingKeyPair, w1)
        /\ generateJwkKeyPair encryptionRequest w1 = (inl e, w2)) ->
  fst (generateDwnConfiguration options s) = Rejected e
  /\ forall configuration, fst (generateDwnConfiguration options s) <> Fulfilled configuration.
Proof.
  intros Hfail.
  assert (fst (generateDwnConfiguration options s) = Rejected e) as Hrej.
  { unfold generateDwnConfiguration, bind, await_generateJwkKeyPair, await.
    unfold signingRequest, encryptionRequest in *.
    destruct Hfail as [[w1 Hsig] | (signingKeyPair & w1 & w2 & Hsig & Henc)].
    - by rewrite Hsig.
    - rewrite Hsig. cbn [world events]. by rewrite Henc. }
  split; first done. intros configuration. by rewrite Hrej.
Qed.

(** C10. Whatever the input list, a run whose two key generations succeed
    asks the generator for Ed25519 keys named #dwn-sig and #dwn-enc, in
    that order and for nothing else, gives the first key the relationship
    authentication and the second keyAgreement, and names #dwn-sig and
    #dwn-enc in the service. *)
Theorem generateDwnConfiguration_constants options s signingKeyPair w1 encryptionKeyPair w2 :
  labelsKeys ->
  generateJwkKeyPair signingRequest (world s) = (inr signingKeyPair, w1) ->
  generateJwkKeyPair encryptionRequest w1 = (inr encryptionKeyPair, w2) ->
  exists configuration s' service,
    generateDwnConfiguration options s = (Fulfilled configuration, s')
    /\ keyRequests (events s') =
         keyRequests (events s)
         ++ [mkKeyGenOptions "Ed25519" "#dwn-sig"; mkKeyGenOptions "Ed25519" "#dwn-enc"]
    /\ verificationMethodKeys (keySet configuration)
       = [ mkVerificationMethodKey signingKeyPair ["authentication"];
           mkVerificationMethodKey encryptionKeyPair ["keyAgreement"] ]
    /\ kid signingKeyPair = "#dwn-sig"
    /\ kid encryptionKeyPair = "#dwn-enc"
    /\ services configuration = [service]
    /\ DidService.id service = "#dwn"
    /\ signingKeys (DidService.serviceEndpoint service) = ["#dwn-sig"]
    /\ encryptionKeys (DidService.serviceEndpoint service) = ["#dwn-enc"].
Proof.
  intros Hkid Hsig Henc.
  eexists _, _, _. split; first by apply (generateDwnConfiguration_run _ _ _ _ _ _ Hsig Henc).
  rewrite (Hkid _ _ _ _ Hsig), (Hkid _ _ _ _ Henc).
  repeat split. cbn [events]. unfold keyRequests.
  by rewrite !omap_app, <- app_assoc.
Qed.

(** *** getRandomInt *)

(** Rounding to 53 bits keeps a product [mant * n] with [mant] below both
    [2^53] and [2^scale] strictly below [n * 2^scale]: rounding up adds at
    most half a unit in the last place, which is less than [n]. *)
Lemma round53_product (m k n : Z) :
  (0 <= m < 2 ^ 53)%Z -> (0 <= k)%Z -> (m < 2 ^ k)%Z -> (1 <= n)%Z ->
  (0 <= round53 (m * n) < n * 2 ^ k)%Z.
Proof.
  intros Hm Hk Hmk Hn. unfold round53.
  set (P := (m * n)%Z).
  assert (0 <= P)%Z as HP0 by nia.
  assert (P <= n * 2 ^ k - n)%Z as HPk by nia.
  destruct (Z.leb_spec (Z.log2 P - 52) 0%Z) as [Hexact | Hshift]; first lia.
  assert (0 < P)%Z as HPpos.
  { destruct (Z.eq_dec P 0%Z) as [HP | HP]; last lia.
    rewrite HP in Hshift. cbn in Hshift. lia. }
  set (shift := (Z.log2 P - 52)%Z) in *.
  pose proof (Z.log2_spec P HPpos) as [Hlow _].
  assert (0 < 2 ^ (shift - 1))%Z as Hhalf by (apply Z.pow_pos_nonneg; lia).
  assert (2 ^ shift = 2 * 2 ^ (shift - 1))%Z as Hunit.
  { rewrite <- Z.pow_succ_r by lia. f_equal. lia. }
  assert (2 ^ Z.log2 P = 2 ^ 53 * 2 ^ (shift - 1))%Z as Hlog.
  { rewrite <- Z.pow_add_r by lia. f_equal. unfold shift. lia. }
  assert (2 ^ (shift - 1) < n)%Z as Hsmall by nia.
  pose proof (Z.div_mod P (2 ^ shift)%Z ltac:(lia)) as Hdiv.
  pose proof (Z.mod_pos_bound P (2 ^ shift)%Z ltac:(lia)) as Hrem.
  assert (0 <= P / 2 ^ shift)%Z as Hq by (apply Z.div_pos; lia).
  set (q := (P / 2 ^ shift)%Z) in *. set (rem := (P mod 2 ^ shift)%Z) in *.
  destruct ((2 ^ (shift - 1) <? rem)%Z || ((rem =? 2 ^ (shift - 1))%Z && Z.odd q)) eqn:Hup.
  - assert (2 ^ (shift - 1) <= rem)%Z as Hge.
    { apply orb_true_iff in Hup as [Hup | Hup].
      - apply Z.ltb_lt in Hup. lia.
      - apply andb_true_iff in Hup as [Hup _]. apply Z.eqb_eq in Hup. lia. }
    nia.
  - nia.
Qed.

Lemma randomInt_range (n : Z) (r : Double) :
  (1 <= n)%Z -> inUnitInterval r ->
  (0 <= randomInt 0 (inject_Z n) r < n)%Z.
Proof.
  intros Hn (Hmant & Hscale & Hbelow). unfold randomInt, multiply.
  change (Qceiling 0) with 0%Z. rewrite Qfloor_Z, Z.sub_0_r, Z.add_0_r.
  rewrite Z.sgn_pos, Z.abs_eq, Z.mul_1_l by lia.
  assert (0 < 2 ^ scale r)%Z as Hpow by (apply Z.pow_pos_nonneg; lia).
  unfold Qfloor. rewrite Z2Pos.id by done.
  pose proof (round53_product (mant r) (scale r) n Hmant ltac:(lia) Hbelow Hn) as [Hlow Hhigh].
  split.
  - apply Z.div_pos; lia.
  - apply Z.div_lt_upper_bound; lia.
Qed.

Lemma arrayGet_in_range {A} (array : list A) (i : Z) :
  (0 <= i < Z.of_nat (length array))%Z ->
  exists x, arrayGet array i = Some x /\ x ∈ array.
Proof.
  intros [Hi0 Hi1]. unfold arrayGet.
  destruct (Z.ltb_spec i 0) as [|_]; first lia.
  destruct (lookup_lt_is_Some_2 array (Z.to_nat i)) as [x Hx]; first lia.
  exists x. split; first done. by eapply list_elem_of_lookup_2.
Qed.

(** *** The probing loop *)

Lemma probeLoop_exit dwnUrls numNodesToAllocate attempts set s :
  loopTest dwnUrls numNodesToAllocate attempts set = false ->
  probeLoop dwnUrls numNodesToAllocate attempts set s = (Fulfilled (attempts, set), s).
Proof.
  intros Hfalse. simp probeLoop.
  destruct (inspect _) as [[] Htest]; first congruence.
  by simp probeLoop.
Qed.

Lemma probeLoop_round dwnUrls numNodesToAllocate attempts set s :
  loopTest dwnUrls numNodesToAllocate attempts set = true ->
  probeLoop dwnUrls numNodesToAllocate attempts set s =
    match probeNode dwnUrls set s with
    | (Fulfilled set', s') => probeLoop dwnUrls numNodesToAllocate (S attempts) set' s'
    | (Rejected e, s') => (Rejected e, s')
    | (OutsideModel, s') => (OutsideModel, s')
    end.
Proof.
  intros Htrue. simp probeLoop.
  destruct (inspect _) as [[] Htest]; last congruence.
  simp probeLoop.
  destruct (probeNode dwnUrls set s) as [[set' | e |] s']; by simp probeLoop.
Qed.

(** A round over a non-empty list of nodes never throws and never leaves
    the model: it draws a listed node, probes it once and collects it when
    the probe is healthy. *)
Lemma probeNode_run dwnUrls set s :
  randomInRange -> 0 < length dwnUrls ->
  exists p s' w,
    probeNode dwnUrls set s = (Fulfilled (collect set p), s')
    /\ Math_random (world s) = (drawn p, w)
    /\ arrayGet dwnUrls (randomInt 0 (lengthQ dwnUrls) (drawn p)) = Some (target p)
    /\ target p ∈ dwnUrls
    /\ fetch (target p +:+ "/health") w = (answer p, world s')
    /\ events s' = events s ++ probeEvents p.
Proof.
  intros Hrandom Hlen.
  destruct (Math_random (world s)) as [r w] eqn:Hr.
  pose proof (Hrandom (world s)) as Hunit. rewrite Hr in Hunit. cbn [fst] in Hunit.
  destruct (arrayGet_in_range dwnUrls (randomInt 0 (lengthQ dwnUrls) r))
    as (dwnUrl & Hget & Hin).
  { apply randomInt_range; [lia | done]. }
  destruct (fetch (dwnUrl +:+ "/health") w) as [healthCheck w'] eqn:Hfetch.
  exists (mkProbe r dwnUrl healthCheck).
  exists (mkRunState w' (events s ++ probeEvents (mkProbe r dwnUrl healthCheck))), w.
  split; last done.
  unfold probeNode, getRandomInt, bind, call_Math_random, ret.
  rewrite Hr, Hget.
  unfold try_catch, bind, await_fetch, await, collect, healthy, probeEvents.
  cbn [world events drawn target answer]. rewrite Hfetch.
  rewrite <- app_assoc. cbn [app].
  destruct healthCheck as [e | healthCheck]; first done.
  by destruct (ok healthCheck).
Qed.

(** The whole loop, from any loop head: it exits normally after the rounds
    of some log; the final set is the log collected round by round. *)
Lemma probeLoop_run dwnUrls numNodesToAllocate attempts set s :
  randomInRange ->
  exists log s',
    probeLoop dwnUrls numNodesToAllocate attempts set s
    = (Fulfilled (attempts + length log, foldl collect set log), s')
    /\ events s' = events s ++ (log ≫= probeEvents)
    /\ Forall (fun p => target p ∈ dwnUrls) log
    /\ Forall (fun p => exists w w', fetch (target p +:+ "/health") w = (answer p, w')) log
    /\ attempts + length log <= Nat.max attempts (length dwnUrls)
    /\ length (foldl collect set log) <= Nat.max (length set) numNodesToAllocate
    /\ loopTest dwnUrls numNodesToAllocate (attempts + length log)
                (foldl collect set log) = false.
Proof.
  intros Hrandom.
  remember (length dwnUrls - attempts) as left eqn:Hleft.
  revert attempts set s Hleft.
  induction left as [left IH] using lt_wf_ind. intros attempts set s Hleft.
  destruct (loopTest dwnUrls numNodesToAllocate attempts set) eqn:Htest.
  - pose proof Htest as Htest'.
    apply andb_prop in Htest' as [Hattempts Hsize].
    apply bool_decide_eq_true in Hattempts, Hsize.
    destruct (probeNode_run dwnUrls set s Hrandom) as (p & s1 & w & Hrun & _ & _ & Hin & Hfetch & Hevents);
      first lia.
    destruct (IH (length dwnUrls - S attempts) ltac:(lia) (S attempts) (collect set p) s1 eq_refl)
      as (log & s' & Hloop & Hevents' & Htargets & Hfetched & Hcount & Hlength & Hexit).
    exists (p :: log), s'.
    rewrite probeLoop_round, Hrun by done.
    cbn [length foldl]. replace (attempts + S (length log)) with (S attempts + length log) by lia.
    split_and!; try done.
    + rewrite Hevents', Hevents. cbn. by rewrite <- app_assoc.
    + by constructor.
    + constructor; last done. by exists w, (world s1).
    + lia.
    + assert (length (collect set p) <= numNodesToAllocate); last lia.
      unfold collect, Set_add. destruct (healthy (answer p)); last lia.
      case_decide; first lia. rewrite length_app. cbn. lia.
  - exists [], s. rewrite probeLoop_exit by done.
    cbn [length foldl]. rewrite Nat.add_0_r, app_nil_r.
    split_and!; try done; lia.
Qed.

(** *** The set collected from a log *)

Lemma Set_add_present x (set : StringSet) : x ∈ set -> Set_add x set = set.
Proof. intros Hin. unfold Set_add. by case_decide. Qed.

Lemma Set_add_elem x (set : StringSet) : x ∈ Set_add x set.
Proof. unfold Set_add. case_decide; first done. set_solver. Qed.

Lemma Set_add_NoDup x (set : StringSet) : NoDup set -> NoDup (Set_add x set).
Proof.
  intros Hnodup. unfold Set_add. case_decide; first done.
  apply NoDup_app. split_and!; [done | | apply NoDup_singleton].
  intros y Hy Hx. apply list_elem_of_singleton in Hx. by subst.
Qed.

Lemma collect_prefix set p : set `prefix_of` collect set p.
Proof.
  unfold collect, Set_add. destruct (healthy (answer p)); last done.
  case_decide; first done. by apply prefix_app_r.
Qed.

Lemma foldl_collect_prefix log : forall set, set `prefix_of` foldl collect set log.
Proof.
  induction log as [| p log IH]; intros set; first done.
  cbn. etrans; [apply collect_prefix | apply IH].
Qed.

Lemma foldl_collect_NoDup log : forall set, NoDup set -> NoDup (foldl collect set log).
Proof.
  induction log as [| p log IH]; intros set Hnodup; first done.
  cbn. apply IH. unfold collect. destruct (healthy (answer p)); last done.
  by apply Set_add_NoDup.
Qed.

(** Whatever is in the final set was there at the start or is the target
    of a healthy probe of the log. *)
Lemma foldl_collect_elem log : forall set x,
  x ∈ foldl collect set log ->
  x ∈ set \/ exists p, p ∈ log /\ target p = x /\ healthy (answer p) = true.
Proof.
  induction log as [| p log IH]; intros set x Hx; first by left.
  cbn in Hx. apply IH in Hx as [Hx | (q & Hq & Htarget & Hhealthy)].
  - unfold collect, Set_add in Hx.
    destruct (healthy (answer p)) eqn:Hhealthy; last by left.
    case_decide; first by left.
    apply elem_of_app in Hx as [Hx | Hx]; first by left.
    apply list_elem_of_singleton in Hx. right. exists p. set_solver.
  - right. exists q. set_solver.
Qed.

(** The target of a healthy probe of the log is in the final set. *)
Lemma foldl_collect_healthy log : forall set p,
  p ∈ log -> healthy (answer p) = true -> target p ∈ foldl collect set log.
Proof.
  induction log as [| q log IH]; intros set p Hp Hhealthy; first by inversion Hp.
  cbn. apply elem_of_cons in Hp as [-> | Hp]; last by apply IH.
  eapply elem_of_prefix; last apply foldl_collect_prefix.
  unfold collect. rewrite Hhealthy. apply Set_add_elem.
Qed.

(** The events of a log hold one fetch per round. *)
Lemma fetched_probeEvents log :
  fetched (log ≫= probeEvents) = (fun p => target p +:+ "/health") <$> log.
Proof.
  induction log as [| p log IH]; first done.
  cbn. unfold fetched in IH. by rewrite IH.
Qed.

(** *** From the document to the loop *)

Lemma getTechPreviewDwnEndpoints_probing s dwnUrls s1 :
  discovers s dwnUrls s1 ->
  getTechPreviewDwnEndpoints s =
    match probeLoop dwnUrls (Nat.min (length dwnUrls) 2) 0 [] s1 with
    | (Fulfilled exit, s') => (Fulfilled (snd exit), s')
    | (Rejected e, s') => (Rejected e, s')
    | (OutsideModel, s') => (OutsideModel, s')
    end.
Proof.
  intros (response & w1 & didDocument & service & others & endpoint & elems
          & Hfetch & Hok & Hjson & Hservices & Hendpoint & Hnodes & Hstrings & ->).
  unfold getTechPreviewDwnEndpoints, bind, try_catch, await_fetch, await.
  rewrite Hfetch, Hok. cbn. rewrite Hjson. cbn. rewrite Hservices. cbn.
  unfold and_then, bind. cbn. rewrite Hendpoint. cbn. rewrite Hnodes. cbn.
  rewrite Hstrings. done.
Qed.

(** *** Claims about the probing loop *)

(** C5. For every list of nodes, every behaviour of the probes and every
    sequence of draws, the loop exits normally after at most as many rounds
    as there are nodes.  The counter at the exit is the number of rounds
    run, whatever the probes answered; each round makes one draw and one
    probe of a listed node, and its answer is the one the world gave.  The
    loop ends only when the counter has reached the number of nodes or the
    set holds min(n, 2) of them: a probe that fails does not end it, and
    leaves the set as it is; so does a round that draws a node already in
    the set. *)
Theorem probeLoop_terminates dwnUrls s :
  randomInRange ->
  exists log s',
    probeLoop dwnUrls (Nat.min (length dwnUrls) 2) 0 [] s
    = (Fulfilled (length log, foldl collect [] log), s')
    /\ length log <= length dwnUrls
    /\ events s' = events s ++ (log ≫= probeEvents)
    /\ length (fetched (events s')) = length (fetched (events s)) + length log
    /\ Forall (fun p => target p ∈ dwnUrls
                        /\ exists w w', fetch (target p +:+ "/health") w = (answer p, w'))
              log
    /\ (length log = length dwnUrls
        \/ length (foldl collect [] log) = Nat.min (length dwnUrls) 2)
    /\ (forall set p, healthy (answer p) = false -> collect set p = set)
    /\ forall set p, target p ∈ set -> collect set p = set.
Proof.
  intros Hrandom.
  destruct (probeLoop_run dwnUrls (Nat.min (length dwnUrls) 2) 0 [] s Hrandom)
    as (log & s' & Hloop & Hevents & Htargets & Hfetched & Hcount & Hlength & Hexit).
  cbn [Nat.add Nat.max length] in *.
  exists log, s'. split_and!; [done | lia | done | | | | |].
  - rewrite Hevents. unfold fetched at 1. rewrite omap_app, length_app.
    fold (fetched (events s)). fold (fetched (log ≫= probeEvents)).
    by rewrite fetched_probeEvents, length_fmap.
  - by apply Forall_and.
  - unfold loopTest in Hexit.
    apply andb_false_iff in Hexit as [Hexit | Hexit];
      apply bool_decide_eq_false in Hexit; [left | right]; lia.
  - intros set p Hfailed. unfold collect. by rewrite Hfailed.
  - intros set p Hin. unfold collect.
    destruct (healthy (answer p)); last done. by apply Set_add_present.
Qed.

(** C6. When the document lists the nodes [dwnUrls], whatever the probes
    answer and whatever is drawn, the call returns a list without
    duplicates, of at most min(n, 2) nodes, all of them listed, and each of
    them was probed during the call with an ok answer. *)
Theorem getTechPreviewDwnEndpoints_selection s dwnUrls s1 :
  randomInRange ->
  discovers s dwnUrls s1 ->
  exists selected s' during,
    getTechPreviewDwnEndpoints s = (Fulfilled selected, s')
    /\ NoDup selected
    /\ length selected <= Nat.min (length dwnUrls) 2
    /\ selected ⊆ dwnUrls
    /\ events s' = events s ++ during
    /\ forall dwnUrl, dwnUrl ∈ selected ->
         exists healthCheck,
           EvFetch (dwnUrl +:+ "/health") (inr healthCheck) ∈ during
           /\ ok healthCheck = true.
Proof.
  intros Hrandom Hdiscovers.
  rewrite (getTechPreviewDwnEndpoints_probing _ _ _ Hdiscovers).
  destruct Hdiscovers as (response & w1 & _ & _ & _ & _ & _ & _ & _ & _ & _ & _ & _ & _ & ->).
  destruct (probeLoop_run dwnUrls (Nat.min (length dwnUrls) 2) 0 []
              (mkRunState w1 (events s ++ [EvFetch wellKnownUrl (inr response)])) Hrandom)
    as (log & s' & -> & Hevents & Htargets & _ & _ & Hlength & _).
  cbn [snd events length] in *.
  exists (foldl collect [] log), s',
         ([EvFetch wellKnownUrl (inr response)] ++ (log ≫= probeEvents)).
  split_and!; [done | | lia | | by rewrite Hevents, <- app_assoc |].
  - apply foldl_collect_NoDup, NoDup_nil_2.
  - intros dwnUrl Hin.
    apply foldl_collect_elem in Hin as [Hin | (p & Hp & <- & _)]; first by inversion Hin.
    by eapply Forall_forall in Htargets.
  - intros dwnUrl Hin.
    apply foldl_collect_elem in Hin as [Hin | (p & Hp & <- & Hhealthy)]; first by inversion Hin.
    unfold healthy in Hhealthy. destruct (answer p) as [e | healthCheck] eqn:Hanswer; first done.
    exists healthCheck. split; last done.
    apply elem_of_app. right. apply list_elem_of_bind. exists p. split; last done.
    unfold probeEvents. rewrite Hanswer. set_solver.
Qed.

Lemma allHealthy_log dwnUrls (log : list Probe) :
  allHealthy dwnUrls ->
  Forall (fun p => target p ∈ dwnUrls) log ->
  Forall (fun p => exists w w', fetch (target p +:+ "/health") w = (answer p, w')) log ->
  Forall (fun p => healthy (answer p) = true) log.
Proof.
  intros Hall Htargets Hfetched. apply Forall_forall. intros p Hp.
  eapply Forall_forall in Htargets, Hfetched; [| done | done].
  destruct Hfetched as (w & w' & Hfetch).
  destruct (Hall _ w Htargets) as (healthCheck & w'' & Hfetch' & Hok).
  rewrite Hfetch in Hfetch'. injection Hfetch' as -> _. done.
Qed.

(** C3, as the code has it.  When the document lists five nodes and every
    probe of a listed node is healthy, the call returns one or two listed
    nodes, without repetition, after at most five probes.  It returns two unless all five
    probes went to one and the same node, which is then the only one
    returned. *)
Theorem five_healthy_nodes s dwnUrls s1 :
  randomInRange ->
  discovers s dwnUrls s1 ->
  length dwnUrls = 5 ->
  allHealthy dwnUrls ->
  exists selected s' probes,
    getTechPreviewDwnEndpoints s = (Fulfilled selected, s')
    /\ fetched (events s') = fetched (events s) ++ wellKnownUrl :: probes
    /\ length probes <= 5
    /\ NoDup selected
    /\ selected ⊆ dwnUrls
    /\ 1 <= length selected <= 2
    /\ (length selected = 2
        \/ exists dwnUrl, selected = [dwnUrl] /\ probes = replicate 5 (dwnUrl +:+ "/health")).
Proof.
  intros Hrandom Hdiscovers Hfive Hall.
  rewrite (getTechPreviewDwnEndpoints_probing _ _ _ Hdiscovers).
  destruct Hdiscovers as (response & w1 & _ & _ & _ & _ & _ & _ & _ & _ & _ & _ & _ & _ & ->).
  destruct (probeLoop_run dwnUrls (Nat.min (length dwnUrls) 2) 0 []
              (mkRunState w1 (events s ++ [EvFetch wellKnownUrl (inr response)])) Hrandom)
    as (log & s' & -> & Hevents & Htargets & Hfetched & Hcount & Hlength & Hexit).
  pose proof (allHealthy_log _ _ Hall Htargets Hfetched) as Hhealthy.
  rewrite Hfive in *. cbn [snd events length Nat.min Nat.max Nat.add] in *.
  set (selected := foldl collect [] log) in *.
  assert (selected ⊆ dwnUrls) as Hsubset.
  { intros dwnUrl Hin.
    apply foldl_collect_elem in Hin as [Hin | (p & Hp & <- & _)]; first by inversion Hin.
    by eapply Forall_forall in Htargets. }
  assert (length selected = 2
          \/ exists dwnUrl, selected = [dwnUrl]
               /\ (fun p => target p +:+ "/health") <$> log = replicate 5 (dwnUrl +:+ "/health"))
    as Hsize.
  { destruct (decide (length selected = 2)) as [|Hnot2]; first by left. right.
    unfold loopTest in Hexit. apply andb_false_iff in Hexit as [Hexit | Hexit];
      apply bool_decide_eq_false in Hexit; last lia.
    assert (length log = 5) as Hlog by lia.
    assert (forall p, p ∈ log -> selected = [target p]) as Hsame.
    { intros p Hp.
      assert (target p ∈ selected) as Hin.
      { apply foldl_collect_healthy; first done. by eapply Forall_forall in Hhealthy. }
      destruct selected as [| x [| y rest]]; [by inversion Hin | | cbn in *; lia].
      apply list_elem_of_singleton in Hin. by subst. }
    destruct log as [| p0 log']; first done.
    exists (target p0). split; first by apply Hsame; left.
    rewrite <- Hlog, <- (length_fmap (fun p => target p +:+ "/health")).
    symmetry. apply replicate_as_Forall_2; first done.
    apply Forall_fmap, Forall_forall. intros p Hp. cbn.
    assert ([target p] = [target p0]) as [= ->]; last done.
    rewrite <- (Hsame p Hp). apply Hsame. by left. }
  exists selected, s', ((fun p => target p +:+ "/health") <$> log).
  split_and!; [done | | rewrite length_fmap; lia
               | apply foldl_collect_NoDup, NoDup_nil_2 | done | | | done].
  - rewrite Hevents. unfold fetched. rewrite !omap_app. cbn.
    fold (fetched (log ≫= probeEvents)). rewrite fetched_probeEvents.
    by rewrite <- app_assoc.
  - destruct Hsize as [-> | (dwnUrl & -> & _)]; cbn; lia.
  - lia.
Qed.

(** C9. For every integer [n >= 1] and every value [r] of [Math.random()]
    in [[0, 1)], [getRandomInt(0, n)] returns an integer in [[0, n)];
    hence reading an array of [n] elements at the drawn index yields one of
    its elements, never [undefined]. *)
Theorem getRandomInt_in_bounds (n : Z) (r : Double) :
  (1 <= n)%Z -> inUnitInterval r ->
  (0 <= randomInt 0 (inject_Z n) r < n)%Z
  /\ (forall s w, Math_random (world s) = (r, w) ->
        fst (getRandomInt 0 (inject_Z n) s) = Fulfilled (randomInt 0 (inject_Z n) r))
  /\ (forall dwnUrls : list string, Z.of_nat (length dwnUrls) = n ->
        exists dwnUrl,
          arrayGet dwnUrls (randomInt 0 (lengthQ dwnUrls) r) = Some dwnUrl
          /\ dwnUrl ∈ dwnUrls).
Proof.
  intros Hn Hr. split; [| split].
  - by apply randomInt_range.
  - intros s w Hdraw. unfold getRandomInt, bind, call_Math_random. by rewrite Hdraw.
  - intros dwnUrls <-. apply arrayGet_in_range. by apply randomInt_range.
Qed.

(** *** Claims about the discovery steps *)

(** C7. When the fetch of the well-known document rejects, or fulfils
    with a status outside 200-299, the call logs one warning, probes
    nothing and returns the empty list; it does not throw. *)
Theorem discovery_fetch_failure s answer w1 :
  fetch wellKnownUrl (world s) = (answer, w1) ->
  (exists error, answer = inl error)
  \/ (exists response, answer = inr response
        /\ ((status response < 200)%N \/ (299 < status response)%N)) ->
  exists reason,
    getTechPreviewDwnEndpoints s =
      (Fulfilled [],
       mkRunState w1 (events s ++ [EvFetch wellKnownUrl answer;
                                   EvConsoleWarn [warnPrefix; reason]])).
Proof.
  intros Hfetch Hfailed.
  unfold getTechPreviewDwnEndpoints, bind, try_catch, await_fetch, await.
  rewrite Hfetch.
  destruct Hfailed as [[error ->] | (response & -> & Hstatus)].
  - exists (message error). cbn. by rewrite <- app_assoc.
  - assert (ok response = false) as ->.
    { unfold ok. apply andb_false_iff.
      destruct Hstatus; [left | right]; apply N.leb_gt; lia. }
    eexists. cbn. by rewrite <- app_assoc.
Qed.

(** C2, where the code departs from it.  After a fetch that fulfilled with
    an ok status, a body that does not parse makes the call reject with
    the parser's error, and a document without a matching service makes it
    reject with a TypeError. *)
Theorem discovery_failure_propagates s response w1 :
  fetch wellKnownUrl (world s) = (inr response, w1) ->
  ok response = true ->
  (forall error, json response = inl error ->
     fst (getTechPreviewDwnEndpoints s) = Rejected error)
  /\ (forall didDocument,
        json response = inr didDocument ->
        getServices didDocument "#dwn" "DecentralizedWebNode" = inr [] ->
        fst (getTechPreviewDwnEndpoints s)
        = Rejected (TypeError "Cannot use 'in' operator to search for 'serviceEndpoint'")).
Proof.
  intros Hfetch Hok.
  split; [intros error Hjson | intros didDocument Hjson Hservices].
  all: unfold getTechPreviewDwnEndpoints, bind, try_catch, await_fetch, await.
  all: rewrite Hfetch, Hok; cbn; rewrite Hjson; cbn; try done.
  by rewrite Hservices.
Qed.

(** C8, where the code departs from it.  When the [serviceEndpoint] of the
    matching service is [null], the call rejects with a TypeError instead
    of returning the empty list. *)
Theorem null_endpoint_rejects s response w1 didDocument service others :
  fetch wellKnownUrl (world s) = (inr response, w1) ->
  ok response = true ->
  json response = inr didDocument ->
  getServices didDocument "#dwn" "DecentralizedWebNode"
  = inr (JsObject service :: others) ->
  service !! "serviceEndpoint" = Some JsNull ->
  fst (getTechPreviewDwnEndpoints s)
  = Rejected (TypeError "Cannot read properties of null (reading 'nodes')").
Proof.
  intros Hfetch Hok Hjson Hservices Hendpoint.
  unfold getTechPreviewDwnEndpoints, bind, try_catch, await_fetch, await.
  rewrite Hfetch, Hok. cbn. rewrite Hjson. cbn. rewrite Hservices. cbn.
  unfold and_then, bind. cbn. by rewrite Hendpoint.
Qed.

(** The part of C8 that the code does satisfy: an endpoint that is a
    string, an array, a number, a boolean, or an object whose [nodes] is
    missing or is not an array makes the call return the empty list after
    the single fetch of the document. *)
Lemma unusable_endpoint_selects_nothing s response w1 didDocument service others endpoint :
  fetch wellKnownUrl (world s) = (inr response, w1) ->
  ok response = true ->
  json response = inr didDocument ->
  getServices didDocument "#dwn" "DecentralizedWebNode"
  = inr (JsObject service :: others) ->
  service !! "serviceEndpoint" = Some endpoint ->
  endpoint <> JsNull -> endpoint <> JsUndefined ->
  (forall props elems, endpoint = JsObject props -> props !! "nodes" <> Some (JsArray elems)) ->
  getTechPreviewDwnEndpoints s =
    (Fulfilled [], mkRunState w1 (events s ++ [EvFetch wellKnownUrl (inr response)])).
Proof.
  intros Hfetch Hok Hjson Hservices Hendpoint Hnull Hundefined Hnodes.
  unfold getTechPreviewDwnEndpoints, bind, try_catch, await_fetch, await.
  rewrite Hfetch, Hok. cbn. rewrite Hjson. cbn. rewrite Hservices. cbn.
  unfold and_then, bind. cbn. rewrite Hendpoint. cbn.
  destruct endpoint as [| | b | n | str | elems | props]; try done.
  cbn. destruct (props !! "nodes") as [[| | | | | elems |] |] eqn:Hprops; try done.
  by destruct (Hnodes props elems).
Qed.

(** ** Further properties *)

(** *** generateDwnConfiguration *)

(** X1. The calls of a run of [generateDwnConfiguration] are the request for
    the signing key and, only when that one succeeded, the request for the
    encryption key: after a failed first request the generator is not asked
    again.  The run fetches nothing, draws nothing and logs nothing. *)
Theorem generateDwnConfiguration_calls options s :
  exists signingOutcome w1,
    generateJwkKeyPair signingRequest (world s) = (signingOutcome, w1)
    /\ match signingOutcome with
       | inl _ =>
           snd (generateDwnConfiguration options s)
           = mkRunState w1 (events s ++ [EvGenerateJwkKeyPair signingRequest false])
       | inr _ =>
           exists encryptionOutcome w2,
             generateJwkKeyPair encryptionRequest w1 = (encryptionOutcome, w2)
             /\ snd (generateDwnConfiguration options s)
                = mkRunState w2
                    (events s
                     ++ [EvGenerateJwkKeyPair signingRequest true;
                         EvGenerateJwkKeyPair encryptionRequest
                           (if encryptionOutcome is inr _ then true else false)])
       end.
Proof.
  destruct (generateJwkKeyPair signingRequest (world s)) as [signingOutcome w1] eqn:Hsig.
  exists signingOutcome, w1. split; first done.
  unfold generateDwnConfiguration, bind, await_generateJwkKeyPair, await.
  unfold signingRequest, encryptionRequest in *. rewrite Hsig.
  destruct signingOutcome as [e | signingKeyPair]; first done.
  cbn [world events].
  destruct (generateJwkKeyPair _ w1) as [encryptionOutcome w2] eqn:Henc.
  exists encryptionOutcome, w2. split; first done.
  destruct encryptionOutcome; cbn; by rewrite <- app_assoc.
Qed.

(** *** getRandomInt *)

Lemma Qfloor_Qmake (a : Z) (b : positive) : Qfloor (a # b) = (a / Z.pos b)%Z.
Proof. reflexivity. Qed.

(** X2. For bounds with [Math.ceil(min) < Math.floor(max)] that, like
    their difference, do not exceed [2^53] in magnitude (so that the
    subtraction and the addition of the code are exact), and a random number
    in [[0, 1)], the result is an integer between the rounded bounds, the
    upper one excluded; hence it lies in [[min, max)]. *)
Theorem getRandomInt_between (min max : Q) (r : Double) :
  (- 2 ^ 53 <= Qceiling min)%Z -> (Qfloor max <= 2 ^ 53)%Z ->
  (Qfloor max - Qceiling min <= 2 ^ 53)%Z ->
  (Qceiling min < Qfloor max)%Z -> inUnitInterval r ->
  (Qceiling min <= randomInt min max r < Qfloor max)%Z
  /\ (min <= inject_Z (randomInt min max r))%Q
  /\ (inject_Z (randomInt min max r) < max)%Q.
Proof.
  intros _ _ _ Hbounds (Hmant & Hscale & Hbelow).
  assert (Qceiling min <= randomInt min max r < Qfloor max)%Z as Hrange.
  { unfold randomInt, multiply.
    set (n := (Qfloor max - Qceiling min)%Z).
    rewrite Z.sgn_pos, Z.abs_eq, Z.mul_1_l by lia.
    assert (0 < 2 ^ scale r)%Z as Hpow by (apply Z.pow_pos_nonneg; lia).
    rewrite Qfloor_Qmake, Z2Pos.id by done.
    pose proof (round53_product (mant r) (scale r) n Hmant ltac:(lia) Hbelow ltac:(lia))
      as [Hlow Hhigh].
    assert (0 <= round53 (mant r * n) / 2 ^ scale r < n)%Z; last lia.
    split; [apply Z.div_pos; lia | apply Z.div_lt_upper_bound; lia]. }
  split; first done. split.
  - eapply Qle_trans; first apply Qle_ceiling.
    rewrite <- Zle_Qle. lia.
  - eapply Qlt_le_trans; last apply Qfloor_le.
    rewrite <- Zlt_Qlt. lia.
Qed.

(** X3. When the rounded bounds meet or cross, [Math.floor(max) <=
    Math.ceil(min)], and, like their difference, do not exceed [2^53] in
    magnitude, the result lies between them, both included; for equal
    bounds it is that bound, whatever is drawn. *)
Theorem getRandomInt_crossed (min max : Q) (r : Double) :
  (- 2 ^ 53 <= Qfloor max)%Z -> (Qceiling min <= 2 ^ 53)%Z ->
  (Qceiling min - Qfloor max <= 2 ^ 53)%Z ->
  (Qfloor max <= Qceiling min)%Z -> inUnitInterval r ->
  (Qfloor max <= randomInt min max r <= Qceiling min)%Z.
Proof.
  intros _ _ _ Hbounds (Hmant & Hscale & Hbelow). unfold randomInt, multiply.
  set (n := (Qfloor max - Qceiling min)%Z).
  assert (0 < 2 ^ scale r)%Z as Hpow by (apply Z.pow_pos_nonneg; lia).
  rewrite Qfloor_Qmake, Z2Pos.id by done.
  destruct (Z.eq_dec n 0%Z) as [Hzero | Hneg].
  - rewrite Hzero. cbn [Z.sgn Z.mul]. rewrite Z.div_0_l by lia. lia.
  - rewrite Z.sgn_neg, Z.abs_neq by lia.
    pose proof (round53_product (mant r) (scale r) (- n) Hmant ltac:(lia) Hbelow ltac:(lia))
      as [Hlow Hhigh].
    assert (n <= -1 * round53 (mant r * - n) / 2 ^ scale r <= 0)%Z; last lia.
    split.
    + apply Z.div_le_lower_bound; lia.
    + apply Z.div_le_upper_bound; lia.
Qed.

(** *** The rounds of getTechPreviewDwnEndpoints *)

Lemma collect_length set p : length (collect set p) <= S (length set).
Proof.
  unfold collect, Set_add. destruct (healthy (answer p)); last lia.
  case_decide; first lia. rewrite length_app. cbn. lia.
Qed.

(** The loop again, with what each round did: it read the node at the index
    computed from the number drawn, and it was started because the loop test
    held of the counter and of the set collected so far. *)
Lemma probeLoop_rounds dwnUrls numNodesToAllocate attempts set s :
  randomInRange ->
  exists log s',
    probeLoop dwnUrls numNodesToAllocate attempts set s
    = (Fulfilled (attempts + length log, foldl collect set log), s')
    /\ events s' = events s ++ (log ≫= probeEvents)
    /\ Forall (fun p => exists w w',
                 fst (Math_random w) = drawn p
                 /\ arrayGet dwnUrls (randomInt 0 (lengthQ dwnUrls) (drawn p))
                    = Some (target p)
                 /\ fst (fetch (target p +:+ "/health") w') = answer p)
             log
    /\ (forall k, k < length log ->
          loopTest dwnUrls numNodesToAllocate (attempts + k)
                   (foldl collect set (take k log)) = true)
    /\ loopTest dwnUrls numNodesToAllocate (attempts + length log)
                (foldl collect set log) = false.
Proof.
  intros Hrandom.
  remember (length dwnUrls - attempts) as left eqn:Hleft.
  revert attempts set s Hleft.
  induction left as [left IH] using lt_wf_ind. intros attempts set s Hleft.
  destruct (loopTest dwnUrls numNodesToAllocate attempts set) eqn:Htest.
  - pose proof Htest as Htest'.
    apply andb_prop in Htest' as [Hattempts _].
    apply bool_decide_eq_true in Hattempts.
    destruct (probeNode_run dwnUrls set s Hrandom)
      as (p & s1 & w & Hrun & Hdrawn & Hget & _ & Hfetch & Hevents); first lia.
    destruct (IH (length dwnUrls - S attempts) ltac:(lia) (S attempts) (collect set p) s1 eq_refl)
      as (log & s' & Hloop & Hevents' & Hrounds & Hstarted & Hexit).
    exists (p :: log), s'.
    rewrite probeLoop_round, Hrun by done.
    cbn [length foldl]. replace (attempts + S (length log)) with (S attempts + length log) by lia.
    split_and!; try done.
    + rewrite Hevents', Hevents. cbn. by rewrite <- app_assoc.
    + constructor; last done. exists (world s), w. split_and!; try done.
      * by rewrite Hdrawn.
      * by rewrite Hfetch.
    + intros [| k] Hk.
      * by rewrite Nat.add_0_r.
      * cbn [take foldl]. replace (attempts + S k) with (S attempts + k) by lia.
        apply Hstarted. cbn in Hk. lia.
  - exists [], s. rewrite probeLoop_exit by done.
    cbn [length foldl]. rewrite Nat.add_0_r, app_nil_r.
    split_and!; try done. intros k Hk. cbn in Hk. lia.
Qed.

(** The same for the whole call, once the document lists [dwnUrls]. *)
Lemma getTechPreviewDwnEndpoints_rounds s dwnUrls s1 :
  randomInRange ->
  discovers s dwnUrls s1 ->
  exists log s',
    getTechPreviewDwnEndpoints s = (Fulfilled (foldl collect [] log), s')
    /\ events s' = events s1 ++ (log ≫= probeEvents)
    /\ Forall (fun p => exists w w',
                 fst (Math_random w) = drawn p
                 /\ arrayGet dwnUrls (randomInt 0 (lengthQ dwnUrls) (drawn p))
                    = Some (target p)
                 /\ fst (fetch (target p +:+ "/health") w') = answer p)
             log
    /\ (forall k, k < length log ->
          k < length dwnUrls
          /\ length (foldl collect [] (take k log)) < Nat.min (length dwnUrls) 2)
    /\ length log <= length dwnUrls
    /\ (length log = length dwnUrls
        \/ length (foldl collect [] log) = Nat.min (length dwnUrls) 2).
Proof.
  intros Hrandom Hdiscovers.
  rewrite (getTechPreviewDwnEndpoints_probing _ _ _ Hdiscovers).
  destruct (probeLoop_rounds dwnUrls (Nat.min (length dwnUrls) 2) 0 [] s1 Hrandom)
    as (log & s' & -> & Hevents & Hrounds & Hstarted & Hexit).
  assert (length log <= length dwnUrls) as Hcount.
  { destruct log as [| p log0 _] using rev_ind; first (cbn; lia).
    assert (length log0 < length (log0 ++ [p])) as Hlast
      by (rewrite length_app; cbn; lia).
    specialize (Hstarted _ Hlast). rewrite length_app. cbn.
    apply andb_prop in Hstarted as [Hattempts _].
    apply bool_decide_eq_true in Hattempts. lia. }
  exists log, s'. cbn [snd]. split_and!; try done.
  - intros k Hk. specialize (Hstarted k Hk). cbn [Nat.add] in Hstarted.
    apply andb_prop in Hstarted as [Hattempts Hsize].
    by apply bool_decide_eq_true in Hattempts, Hsize.
  - cbn [Nat.add] in Hexit. unfold loopTest in Hexit.
    assert (length (foldl collect [] log) <= Nat.min (length dwnUrls) 2) as Hsize.
    { destruct log as [| p log0 _] using rev_ind; first (cbn; lia).
      assert (length log0 < length (log0 ++ [p])) as Hlast
        by (rewrite length_app; cbn; lia).
      specialize (Hstarted _ Hlast).
      apply andb_prop in Hstarted as [_ Hbefore].
      apply bool_decide_eq_true in Hbefore.
      rewrite take_app_length in Hbefore. rewrite foldl_app. cbn [foldl].
      pose proof (collect_length (foldl collect [] log0) p). lia. }
    apply andb_false_iff in Hexit as [Hexit | Hexit];
      apply bool_decide_eq_false in Hexit; [left | right]; lia.
Qed.

Lemma arrayGet_elem {A} (array : list A) (i : Z) (x : A) :
  arrayGet array i = Some x -> x ∈ array.
Proof.
  unfold arrayGet. destruct (i <? 0)%Z; first done.
  apply list_elem_of_lookup_2.
Qed.

(** X4. Once the document lists [dwnUrls], the call makes nothing but rounds of
    one call of [Math.random] followed by one fetch of [node/health], at
    most [n] of them, where [node] is the element of the list at the index
    computed from the number just drawn.  It logs no warning, whatever the
    probes answer. *)
Theorem getTechPreviewDwnEndpoints_trace s dwnUrls s1 :
  randomInRange ->
  discovers s dwnUrls s1 ->
  exists selected s' response log,
    getTechPreviewDwnEndpoints s = (Fulfilled selected, s')
    /\ events s' = events s ++ EvFetch wellKnownUrl (inr response) :: (log ≫= probeEvents)
    /\ length log <= length dwnUrls
    /\ Forall (fun p =>
                 arrayGet dwnUrls (randomInt 0 (lengthQ dwnUrls) (drawn p)) = Some (target p))
              log.
Proof.
  intros Hrandom Hdiscovers.
  destruct (getTechPreviewDwnEndpoints_rounds s dwnUrls s1 Hrandom Hdiscovers)
    as (log & s' & Hrun & Hevents & Hrounds & _ & Hcount & _).
  destruct Hdiscovers as (response & w1 & _ & _ & _ & _ & _ & _ & _ & _ & _ & _ & _ & _ & ->).
  exists (foldl collect [] log), s', response, log.
  split_and!; [done | | done |].
  - rewrite Hevents. cbn [events]. by rewrite <- app_assoc.
  - eapply Forall_impl; first done. cbn. by intros p (w & w' & _ & Hget & _).
Qed.

(** X5. The nodes returned are exactly the nodes that answered a probe of this
    call with an ok status. *)
Theorem getTechPreviewDwnEndpoints_exact s dwnUrls s1 :
  randomInRange ->
  discovers s dwnUrls s1 ->
  exists selected s' log,
    getTechPreviewDwnEndpoints s = (Fulfilled selected, s')
    /\ events s' = events s1 ++ (log ≫= probeEvents)
    /\ forall dwnUrl,
         dwnUrl ∈ selected
         <-> exists p, p ∈ log /\ target p = dwnUrl /\ healthy (answer p) = true.
Proof.
  intros Hrandom Hdiscovers.
  destruct (getTechPreviewDwnEndpoints_rounds s dwnUrls s1 Hrandom Hdiscovers)
    as (log & s' & Hrun & Hevents & _).
  exists (foldl collect [] log), s', log. split_and!; [done | done |].
  intros dwnUrl. split.
  - intros Hin. apply foldl_collect_elem in Hin as [Hin | Hin]; [by inversion Hin | done].
  - intros (p & Hp & <- & Hhealthy). by apply foldl_collect_healthy.
Qed.

(** X6. Every round starts with fewer than min(n, 2) nodes collected: nothing
    is probed once that many are found.  With fewer found, the call returns
    only after [n] rounds. *)
Theorem getTechPreviewDwnEndpoints_stops s dwnUrls s1 :
  randomInRange ->
  discovers s dwnUrls s1 ->
  exists selected s' log,
    getTechPreviewDwnEndpoints s = (Fulfilled selected, s')
    /\ events s' = events s1 ++ (log ≫= probeEvents)
    /\ selected = foldl collect [] log
    /\ (forall k, k < length log ->
          length (foldl collect [] (take k log)) < Nat.min (length dwnUrls) 2)
    /\ (length selected < Nat.min (length dwnUrls) 2 -> length log = length dwnUrls).
Proof.
  intros Hrandom Hdiscovers.
  destruct (getTechPreviewDwnEndpoints_rounds s dwnUrls s1 Hrandom Hdiscovers)
    as (log & s' & Hrun & Hevents & _ & Hstarted & _ & Hexit).
  exists (foldl collect [] log), s', log. split_and!; [done | done | done | |].
  - intros k Hk. by apply Hstarted.
  - intros Hfew. destruct Hexit; [done | lia].
Qed.

(** X7. When no probe of a listed node answers with an ok status, the call
    returns the empty list after exactly [n] rounds. *)
Theorem getTechPreviewDwnEndpoints_none_healthy s dwnUrls s1 :
  randomInRange ->
  discovers s dwnUrls s1 ->
  (forall dwnUrl w, dwnUrl ∈ dwnUrls ->
     healthy (fst (fetch (dwnUrl +:+ "/health") w)) = false) ->
  exists s' log,
    getTechPreviewDwnEndpoints s = (Fulfilled [], s')
    /\ events s' = events s1 ++ (log ≫= probeEvents)
    /\ length log = length dwnUrls.
Proof.
  intros Hrandom Hdiscovers Hdown.
  destruct (getTechPreviewDwnEndpoints_rounds s dwnUrls s1 Hrandom Hdiscovers)
    as (log & s' & Hrun & Hevents & Hrounds & _ & Hcount & Hexit).
  assert (forall set, foldl collect set log = set) as Hnone.
  { clear Hrun Hevents Hcount Hexit.
    induction log as [| p log IH]; intros set; first done.
    apply Forall_cons in Hrounds as [(w & w' & _ & Hget & Hanswer) Hrounds].
    cbn [foldl]. rewrite IH by done. unfold collect.
    rewrite <- Hanswer, Hdown; first done. by eapply arrayGet_elem. }
  rewrite Hnone in Hrun, Hexit. exists s', log. split_and!; [done | done |].
  destruct Hexit as [| Hzero]; first done. cbn in Hzero. lia.
Qed.

(** X8. A list of no nodes: the call returns the empty list without drawing or
    probing anything. *)
Theorem getTechPreviewDwnEndpoints_no_nodes s s1 :
  discovers s [] s1 ->
  getTechPreviewDwnEndpoints s = (Fulfilled [], s1).
Proof.
  intros Hdiscovers.
  rewrite (getTechPreviewDwnEndpoints_probing _ _ _ Hdiscovers).
  by rewrite probeLoop_exit.
Qed.

(** X9. A single listed node whose probes are healthy is returned after one
    draw and one probe. *)
Theorem getTechPreviewDwnEndpoints_single_node s dwnUrl s1 :
  randomInRange ->
  discovers s [dwnUrl] s1 ->
  allHealthy [dwnUrl] ->
  exists s' r healthCheck,
    getTechPreviewDwnEndpoints s = (Fulfilled [dwnUrl], s')
    /\ events s' = events s1 ++ [EvMathRandom r; EvFetch (dwnUrl +:+ "/health") (inr healthCheck)]
    /\ ok healthCheck = true.
Proof.
  intros Hrandom Hdiscovers Hall.
  destruct (getTechPreviewDwnEndpoints_rounds s [dwnUrl] s1 Hrandom Hdiscovers)
    as (log & s' & Hrun & Hevents & Hrounds & _ & Hcount & Hexit).
  cbn [length Nat.min] in *.
  destruct log as [| p [| q log]]; [cbn in Hexit; lia | | cbn in Hcount; lia].
  apply Forall_cons in Hrounds as [(w & w' & _ & Hget & Hanswer) _].
  apply arrayGet_elem, list_elem_of_singleton in Hget.
  destruct (Hall dwnUrl w' ltac:(by left)) as (healthCheck & w'' & Hfetch & Hok).
  rewrite Hget, Hfetch in Hanswer. cbn in Hanswer.
  exists s', (drawn p), healthCheck.
  destruct p as [r u a]. cbn in *. subst u a.
  unfold collect, healthy in Hrun. cbn in Hrun. rewrite Hok in Hrun.
  split_and!; [done | | done].
  rewrite Hevents. by cbn.
Qed.

(** X10. When every number drawn selects the same index, at most one node is
    returned, however many nodes are healthy: the node at that index. *)
Theorem getTechPreviewDwnEndpoints_same_draws s dwnUrls s1 (i : Z) :
  randomInRange ->
  discovers s dwnUrls s1 ->
  (forall w, randomInt 0 (lengthQ dwnUrls) (fst (Math_random w)) = i) ->
  exists selected s',
    getTechPreviewDwnEndpoints s = (Fulfilled selected, s')
    /\ length selected <= 1
    /\ forall dwnUrl, dwnUrl ∈ selected -> arrayGet dwnUrls i = Some dwnUrl.
Proof.
  intros Hrandom Hdiscovers Hsame.
  destruct (getTechPreviewDwnEndpoints_rounds s dwnUrls s1 Hrandom Hdiscovers)
    as (log & s' & Hrun & _ & Hrounds & _).
  exists (foldl collect [] log), s'. split; first done.
  assert (Forall (fun p => arrayGet dwnUrls i = Some (target p)) log) as Htargets.
  { eapply Forall_impl; first done. cbn.
    intros p (w & w' & Hdrawn & Hget & _). by rewrite <- (Hsame w), Hdrawn. }
  assert (forall set, (forall x, x ∈ set -> arrayGet dwnUrls i = Some x) ->
            forall x, x ∈ foldl collect set log -> arrayGet dwnUrls i = Some x) as Hall.
  { intros set Hset x Hx.
    apply foldl_collect_elem in Hx as [Hx | (p & Hp & <- & _)]; first by apply Hset.
    by eapply Forall_forall in Htargets. }
  assert (forall x, x ∈ foldl collect [] log -> arrayGet dwnUrls i = Some x) as Hone.
  { apply Hall. intros x Hx. by inversion Hx. }
  split; last done.
  pose proof (foldl_collect_NoDup log [] ltac:(apply NoDup_nil_2)) as Hnodup.
  destruct (foldl collect [] log) as [| x [| y rest]]; [cbn; lia | cbn; lia |].
  exfalso.
  assert (x = y) as ->.
  { assert (Some x = Some y) as [= ->]; last done.
    rewrite <- (Hone x), <- (Hone y); [done | set_solver | set_solver]. }
  apply NoDup_cons in Hnodup as [Hnot _]. set_solver.
Qed.

(** *** The discovery steps *)

(** X11. The text of the warning: the message of the error the fetch rejected
    with, or [HTTP Error:] followed by the status and the status text. *)
Theorem discovery_warning s answer w1 :
  fetch wellKnownUrl (world s) = (answer, w1) ->
  healthy answer = false ->
  getTechPreviewDwnEndpoints s =
    (Fulfilled [],
     mkRunState w1
       (events s
        ++ [EvFetch wellKnownUrl answer;
            EvConsoleWarn
              ["failed to get tech preview dwn endpoints:";
               match answer with
               | inl error => message error
               | inr response =>
                   "HTTP Error: " +:+ pretty (status response) +:+ " "
                   +:+ statusText response
               end]])).
Proof.
  intros Hfetch Hfailed.
  unfold getTechPreviewDwnEndpoints, bind, try_catch, await_fetch, await.
  rewrite Hfetch. destruct answer as [error | response]; cbn in *.
  - by rewrite <- app_assoc.
  - rewrite Hfailed. cbn. by rewrite <- app_assoc.
Qed.

(** X12. A matching service that has no [serviceEndpoint] key yields the empty
    list after the single fetch of the document. *)
Theorem missing_endpoint_selects_nothing s response w1 didDocument service others :
  fetch wellKnownUrl (world s) = (inr response, w1) ->
  ok response = true ->
  json response = inr didDocument ->
  getServices didDocument "#dwn" "DecentralizedWebNode"
  = inr (JsObject service :: others) ->
  service !! "serviceEndpoint" = None ->
  getTechPreviewDwnEndpoints s =
    (Fulfilled [], mkRunState w1 (events s ++ [EvFetch wellKnownUrl (inr response)])).
Proof.
  intros Hfetch Hok Hjson Hservices Hendpoint.
  unfold getTechPreviewDwnEndpoints, bind, try_catch, await_fetch, await.
  rewrite Hfetch, Hok. cbn. rewrite Hjson. cbn. rewrite Hservices. cbn.
  unfold and_then, bind. cbn. by rewrite Hendpoint.
Qed.

(** X14. A rejection can only come from reading the document.  When the call
    rejects, the fetch of the document had fulfilled with an ok status,
    nothing else was fetched, nothing was drawn and nothing was logged: the
    call never rejects because the fetch or a probe failed. *)
Theorem getTechPreviewDwnEndpoints_rejects_before_probing s error s' :
  randomInRange ->
  getTechPreviewDwnEndpoints s = (Rejected error, s') ->
  exists response,
    fetch wellKnownUrl (world s) = (inr response, world s')
    /\ ok response = true
    /\ events s' = events s ++ [EvFetch wellKnownUrl (inr response)].
Proof.
  intros Hrandom.
  unfold getTechPreviewDwnEndpoints, bind, try_catch, await_fetch, await.
  destruct (fetch wellKnownUrl (world s)) as [[failure | response] w1] eqn:Hfetch;
    cbn; first done.
  destruct (ok response) eqn:Hok; cbn; last done.
  destruct (json response) as [e | didDocument]; cbn; first by intros [= <- <-]; eauto.
  destruct (getServices didDocument "#dwn" "DecentralizedWebNode") as [e | found]; cbn;
    first by intros [= <- <-]; eauto.
  unfold and_then, bind.
  destruct (default JsUndefined (head found)) as [| | b | n | str | elems | service];
    cbn; try (by intros [= <- <-]; eauto); try done.
  destruct (service !! "serviceEndpoint")
    as [[| | b | n | str | elems | endpoint] |]; cbn;
    try (by intros [= <- <-]; eauto); try done.
  destruct (endpoint !! "nodes") as [[| | b | n | str | elems |] |]; cbn; try done.
  destruct (stringArray elems) as [dwnUrls |]; cbn; last done.
  destruct (probeLoop_run dwnUrls (Nat.min (length dwnUrls) 2) 0 []
              (mkRunState w1 (events s ++ [EvFetch wellKnownUrl (inr response)])) Hrandom)
    as (log & s2 & -> & _). done.
Qed.

End TechPreview.

(** ** The statements on concrete worlds *)

(** ** Properties of the utilities *)

(** X15. [isDefined] is false exactly on [undefined] and [null], and it is true
    exactly on the values a property of which can be read without a
    TypeError. *)
Theorem isDefined_guards_reads (arg : JsValue) (key : string) :
  (isDefined arg = false <-> arg = JsUndefined \/ arg = JsNull)
  /\ (isDefined arg = true <-> exists value, js_get arg key = inr value).
Proof.
  split.
  - destruct arg; cbn; split; intros H; try done; try (by left); try (by right);
      by destruct H.
  - destruct arg; cbn; split; intros H; try done; try (by eexists); by destruct H.
Qed.

(** X16. A view that lies within its buffer is a slice exactly when it spans
    fewer bytes than the buffer has. *)
Theorem isArrayBufferSlice_smaller (arrayBufferView : ArrayBufferView.t) :
  withinBuffer arrayBufferView ->
  (isArrayBufferSlice arrayBufferView = true
   <-> (ArrayBufferView.byteLength arrayBufferView
        < ArrayBuffer.byteLength (ArrayBufferView.buffer arrayBufferView))%N).
Proof.
  unfold withinBuffer, isArrayBufferSlice. intros Hwithin.
  rewrite orb_true_iff, !negb_true_iff, !N.eqb_neq. lia.
Qed.

Lemma alphaNumericRun_all (tag rest : string) (c : Ascii.ascii) :
  allAlphaNumeric tag = true -> isAlphaNumeric c = false ->
  alphaNumericRun (tag +:+ String c rest) = tag.
Proof.
  intros Hall Hc. induction tag as [| d tag IH]; simpl.
  - by rewrite Hc.
  - cbn [allAlphaNumeric] in Hall. apply andb_true_iff in Hall as [Hd Hall].
    rewrite Hd. by rewrite IH.
Qed.

(** X17. For a tag made of one or more alphanumeric characters, the pattern
    takes the tag back out of [[object tag]]. *)
Theorem typeOfTypeString_tag (tag : string) :
  tag <> EmptyString -> allAlphaNumeric tag = true ->
  typeOfTypeString ("[object " +:+ tag +:+ "]") = inr tag.
Proof.
  intros Hne Hall. unfold typeOfTypeString.
  simpl.
  change ("" +:+ tag +:+ "]") with (tag +:+ "]").
  rewrite alphaNumericRun_all by done.
  by apply String.eqb_neq in Hne as ->.
Qed.

(** X18. On the values of JSON, [universalTypeOf] never throws and returns the
    name of the kind of the value.  It tells apart [null], arrays and plain
    objects, for all of which [typeof] answers the same, and values that it
    gives the same name have the same [typeof]. *)
Theorem universalTypeOf_kinds :
  (forall value, universalTypeOf value = inr (builtinTag value))
  /\ (forall v w, universalTypeOf v = universalTypeOf w -> typeof v = typeof w)
  /\ (forall elems props,
        typeof JsNull = typeof (JsArray elems)
        /\ typeof (JsArray elems) = typeof (JsObject props)
        /\ universalTypeOf JsNull <> universalTypeOf (JsArray elems)
        /\ universalTypeOf JsNull <> universalTypeOf (JsObject props)
        /\ universalTypeOf (JsArray elems) <> universalTypeOf (JsObject props)).
Proof.
  assert (forall value, universalTypeOf value = inr (builtinTag value)) as Hkind.
  { intros value. unfold universalTypeOf, Object_prototype_toString.
    apply typeOfTypeString_tag; by destruct value. }
  split_and!; first done.
  - intros v w. rewrite !Hkind. intros [= Htag]. by destruct v, w.
  - intros elems props. rewrite !Hkind. by split_and!.
Qed.

Lemma alphaNumericRun_nonempty (s : string) :
  alphaNumericRun s <> EmptyString
  <-> exists d post, s = String d post /\ isAlphaNumeric d = true.
Proof.
  destruct s as [| d post]; cbn [alphaNumericRun].
  - split; [done | by intros (? & ? & ? & ?)].
  - destruct (isAlphaNumeric d) eqn:Hd.
    + split; [by eexists _, _ | done].
    + split; [done | intros (? & ? & [= <- <-] & ?); congruence].
Qed.

Lemma alphaNumericRun_allAlphaNumeric (s : string) :
  allAlphaNumeric (alphaNumericRun s) = true.
Proof.
  induction s as [| c s IH]; cbn [alphaNumericRun]; first done.
  destruct (isAlphaNumeric c) eqn:Hc; cbn [allAlphaNumeric]; last done.
  by rewrite Hc.
Qed.

(** X19. [universalTypeOf] from the type string on: it returns a non-empty
    alphanumeric word, or throws; it throws exactly when the type string has
    no white space character that is followed by an alphanumeric one. *)
Theorem typeOfTypeString_outcome (typeString : string) :
  (forall type, typeOfTypeString typeString = inr type ->
     type <> EmptyString /\ allAlphaNumeric type = true)
  /\ ((exists error, typeOfTypeString typeString = inl error)
      <-> ~ exists before c d after,
            typeString = before +:+ String c (String d after)
            /\ isWhiteSpace c = true /\ isAlphaNumeric d = true).
Proof.
  unfold typeOfTypeString. split.
  - induction typeString as [| c rest IH]; cbn [String_match_type]; first done.
    destruct (isWhiteSpace c && negb (String.eqb (alphaNumericRun rest) EmptyString))
      eqn:Htest; last done.
    intros type [= <-]. apply andb_true_iff in Htest as [_ Hrun].
    apply negb_true_iff, String.eqb_neq in Hrun.
    split; [done | apply alphaNumericRun_allAlphaNumeric].
  - induction typeString as [| c rest IH]; cbn [String_match_type].
    + split; last by eexists.
      intros _ (before & c & d & after & Heq & _). by destruct before.
    + destruct (isWhiteSpace c && negb (String.eqb (alphaNumericRun rest) EmptyString))
        eqn:Htest.
      * apply andb_true_iff in Htest as [Hc Hrun].
        apply negb_true_iff, String.eqb_neq, alphaNumericRun_nonempty in Hrun
          as (d & post & -> & Hd).
        split; first by intros [? ?].
        intros Hnone. destruct Hnone. by exists EmptyString, c, d, post.
      * rewrite IH. split.
        -- intros Hrest (before & c' & d & after & Heq & Hc' & Hd). apply Hrest.
           destruct before as [| b before]; simpl in Heq.
           ++ injection Heq as <- ->.
              rewrite Hc' in Htest. cbn [andb alphaNumericRun] in Htest.
              rewrite Hd in Htest. done.
           ++ injection Heq as <- ->. by exists before, c', d, after.
        -- intros Hall (before & c' & d & after & -> & Hc' & Hd). apply Hall.
           by exists (String c before), c', d, after.
Qed.


Module Checks.
Import Scenario.

Lemma generateJwkKeyPair_labelsKeys :
  labelsKeys nat JwkKeyPair generateJwkKeyPair kid.
Proof. intros options w keyPair w' [= <- _]. reflexivity. Qed.

Lemma randomSwing_inRange : randomInRange nat randomSwing.
Proof.
  intros w. unfold randomSwing. cbn [fst].
  destruct (Nat.even (w / 2)); vm_compute; intuition discriminate.
Qed.

Lemma randomZero_inRange : randomInRange nat randomZero.
Proof. intros w. vm_compute. intuition discriminate. Qed.

(** C1 on a list with a repeated URL. *)
Lemma generateDwnConfiguration_contents_witness :
  exists configuration s' service,
    generateDwnConfiguration nat JwkKeyPair generateJwkKeyPair
      (mkDwnConfigurationOptions ["https://dwn1.example"; "https://dwn1.example"]) start
    = (Fulfilled configuration, s')
    /\ services configuration = [service]
    /\ DidService.type service = "DecentralizedWebNode"
    /\ nodes (DidService.serviceEndpoint service)
       = ["https://dwn1.example"; "https://dwn1.example"]
    /\ keyPair <$> verificationMethodKeys (keySet configuration)
       = [("#dwn-sig", 0); ("#dwn-enc", 1)]
    /\ signingKeys (DidService.serviceEndpoint service) = ["#dwn-sig"]
    /\ encryptionKeys (DidService.serviceEndpoint service) = ["#dwn-enc"].
Proof.
  apply (generateDwnConfiguration_contents nat JwkKeyPair generateJwkKeyPair kid
           (mkDwnConfigurationOptions ["https://dwn1.example"; "https://dwn1.example"])
           start ("#dwn-sig", 0) 1 ("#dwn-enc", 1) 2).
  - apply generateJwkKeyPair_labelsKeys.
  - reflexivity.
  - reflexivity.
Defined.

(** C4 on a generator whose second call fails. *)
Lemma generateDwnConfiguration_all_or_nothing_witness :
  fst (generateDwnConfiguration nat JwkKeyPair generateOnce
         (mkDwnConfigurationOptions threeNodes) start)
  = Rejected (Error "unsupported algorithm")
  /\ forall configuration,
       fst (generateDwnConfiguration nat JwkKeyPair generateOnce
              (mkDwnConfigurationOptions threeNodes) start)
       <> Fulfilled configuration.
Proof.
  apply (generateDwnConfiguration_all_or_nothing nat JwkKeyPair generateOnce).
  right. exists ("#dwn-sig", 0), 1, 2. split; reflexivity.
Defined.

(** C10 on the empty list. *)
Lemma generateDwnConfiguration_constants_witness :
  exists configuration s' service,
    generateDwnConfiguration nat JwkKeyPair generateJwkKeyPair
      (mkDwnConfigurationOptions []) start
    = (Fulfilled configuration, s')
    /\ keyRequests (events s') =
         keyRequests (events start)
         ++ [mkKeyGenOptions "Ed25519" "#dwn-sig"; mkKeyGenOptions "Ed25519" "#dwn-enc"]
    /\ verificationMethodKeys (keySet configuration)
       = [ mkVerificationMethodKey ("#dwn-sig", 0) ["authentication"];
           mkVerificationMethodKey ("#dwn-enc", 1) ["keyAgreement"] ]
    /\ kid ("#dwn-sig", 0) = "#dwn-sig"
    /\ kid ("#dwn-enc", 1) = "#dwn-enc"
    /\ services configuration = [service]
    /\ DidService.id service = "#dwn"
    /\ signingKeys (DidService.serviceEndpoint service) = ["#dwn-sig"]
    /\ encryptionKeys (DidService.serviceEndpoint service) = ["#dwn-enc"].
Proof.
  apply (generateDwnConfiguration_constants nat JwkKeyPair generateJwkKeyPair kid
           (mkDwnConfigurationOptions []) start ("#dwn-sig", 0) 1 ("#dwn-enc", 1) 2).
  - apply generateJwkKeyPair_labelsKeys.
  - reflexivity.
  - reflexivity.
Defined.

Lemma discovers_five :
  discovers nat (fetchOk (listing fiveNodes)) getServices start fiveNodes
            (fetchedListing fiveNodes).
Proof.
  exists (mkResponse 200 "OK" (inr (listing fiveNodes))), 1, (listing fiveNodes),
         (dwnService (JsObject (endpointOf fiveNodes))), [],
         (endpointOf fiveNodes), (JsString <$> fiveNodes).
  split_and!; reflexivity.
Qed.

Lemma discovers_three :
  discovers nat (fetchOneUp (listing threeNodes)) getServices start threeNodes
            (fetchedListing threeNodes).
Proof.
  exists (mkResponse 200 "OK" (inr (listing threeNodes))), 1, (listing threeNodes),
         (dwnService (JsObject (endpointOf threeNodes))), [],
         (endpointOf threeNodes), (JsString <$> threeNodes).
  split_and!; reflexivity.
Qed.

Lemma fetchOk_allHealthy document dwnUrls : allHealthy nat (fetchOk document) dwnUrls.
Proof. intros dwnUrl w _. by eexists _, _. Qed.

(** C5 on three nodes of which one is up. *)
Lemma probeLoop_terminates_witness :
  exists log s',
    probeLoop nat (fetchOneUp (listing threeNodes)) randomSwing threeNodes
              (Nat.min (length threeNodes) 2) 0 [] (fetchedListing threeNodes)
    = (Fulfilled (length log, foldl collect [] log), s')
    /\ length log <= length threeNodes
    /\ events s' = events (fetchedListing threeNodes) ++ (log ≫= probeEvents)
    /\ length (fetched (events s'))
       = length (fetched (events (fetchedListing threeNodes))) + length log
    /\ Forall (fun p => target p ∈ threeNodes
                        /\ exists w w',
                             fetchOneUp (listing threeNodes) (target p +:+ "/health") w
                             = (answer p, w'))
              log
    /\ (length log = length threeNodes
        \/ length (foldl collect [] log) = Nat.min (length threeNodes) 2)
    /\ (forall set p, healthy (answer p) = false -> collect set p = set)
    /\ forall set p, target p ∈ set -> collect set p = set.
Proof.
  apply (probeLoop_terminates nat (fetchOneUp (listing threeNodes)) randomSwing
           threeNodes (fetchedListing threeNodes)).
  apply randomSwing_inRange.
Defined.

(** C6 on the same world. *)
Lemma getTechPreviewDwnEndpoints_selection_witness :
  exists selected s' during,
    getTechPreviewDwnEndpoints nat (fetchOneUp (listing threeNodes)) randomSwing
                               getServices start
    = (Fulfilled selected, s')
    /\ NoDup selected
    /\ length selected <= Nat.min (length threeNodes) 2
    /\ selected ⊆ threeNodes
    /\ events s' = events start ++ during
    /\ forall dwnUrl, dwnUrl ∈ selected ->
         exists healthCheck,
           EvFetch (dwnUrl +:+ "/health") (inr healthCheck) ∈ during
           /\ ok healthCheck = true.
Proof.
  apply (getTechPreviewDwnEndpoints_selection nat (fetchOneUp (listing threeNodes))
           randomSwing getServices start threeNodes (fetchedListing threeNodes)).
  - apply randomSwing_inRange.
  - apply discovers_three.
Defined.

(** The run of that world: the first and the third probe go to the node
    that is up, the second to a node that answers 503. *)
Example one_node_up :
  fst (getTechPreviewDwnEndpoints nat (fetchOneUp (listing threeNodes)) randomSwing
                                  getServices start)
  = Fulfilled ["https://dwn1.example"]
  /\ fetched (events (snd (getTechPreviewDwnEndpoints
                             nat (fetchOneUp (listing threeNodes)) randomSwing
                             getServices start)))
     = [wellKnownUrl; "https://dwn1.example/health"; "https://dwn3.example/health";
        "https://dwn1.example/health"].
Proof. split; vm_compute; reflexivity. Qed.

(** C3 as stated fails: five distinct nodes, all healthy, and a source of
    random numbers that keeps answering 0.  All five probes go to the first
    node and the call returns that node alone, not a set of two. *)
Lemma five_healthy_nodes_single :
  length fiveNodes = 5
  /\ NoDup fiveNodes
  /\ allHealthy nat (fetchOk (listing fiveNodes)) fiveNodes
  /\ randomInRange nat randomZero
  /\ discovers nat (fetchOk (listing fiveNodes)) getServices start fiveNodes
               (fetchedListing fiveNodes)
  /\ fst (getTechPreviewDwnEndpoints nat (fetchOk (listing fiveNodes)) randomZero
                                     getServices start)
     = Fulfilled ["https://dwn1.example"]
  /\ fetched (events (snd (getTechPreviewDwnEndpoints nat (fetchOk (listing fiveNodes))
                                                      randomZero getServices start)))
     = wellKnownUrl :: replicate 5 "https://dwn1.example/health"
  /\ ~ exists selected,
        fst (getTechPreviewDwnEndpoints nat (fetchOk (listing fiveNodes)) randomZero
                                        getServices start)
        = Fulfilled selected
        /\ length selected = 2.
Proof.
  assert (fst (getTechPreviewDwnEndpoints nat (fetchOk (listing fiveNodes)) randomZero
                                          getServices start)
          = Fulfilled ["https://dwn1.example"]) as Hrun.
  { vm_compute. reflexivity. }
  split_and!.
  - reflexivity.
  - compute_done.
  - apply fetchOk_allHealthy.
  - apply randomZero_inRange.
  - apply discovers_five.
  - exact Hrun.
  - vm_compute. reflexivity.
  - intros (selected & Hselected & Hlength).
    rewrite Hrun in Hselected. injection Hselected as <-. discriminate.
Qed.

(** C3 as amended, on a world whose draws swing between the first and the
    last node. *)
Lemma five_healthy_nodes_witness :
  exists selected s' probes,
    getTechPreviewDwnEndpoints nat (fetchOk (listing fiveNodes)) randomSwing
                               getServices start
    = (Fulfilled selected, s')
    /\ fetched (events s') = fetched (events start) ++ wellKnownUrl :: probes
    /\ length probes <= 5
    /\ NoDup selected
    /\ selected ⊆ fiveNodes
    /\ 1 <= length selected <= 2
    /\ (length selected = 2
        \/ exists dwnUrl, selected = [dwnUrl]
             /\ probes = replicate 5 (dwnUrl +:+ "/health")).
Proof.
  apply (five_healthy_nodes nat (fetchOk (listing fiveNodes)) randomSwing getServices
           start fiveNodes (fetchedListing fiveNodes)).
  - apply randomSwing_inRange.
  - apply discovers_five.
  - reflexivity.
  - apply fetchOk_allHealthy.
Defined.

(** C9 at n = 5 and the largest number below 1: the product rounds to a
    number below 5 and the last index is drawn. *)
Lemma getRandomInt_in_bounds_witness :
  (0 <= randomInt 0 (inject_Z 5) almostOne < 5)%Z
  /\ (forall (s : RunState nat) w, randomSwing (world s) = (almostOne, w) ->
        fst (getRandomInt nat randomSwing 0 (inject_Z 5) s)
        = Fulfilled (randomInt 0 (inject_Z 5) almostOne))
  /\ (forall dwnUrls : list string, Z.of_nat (length dwnUrls) = 5%Z ->
        exists dwnUrl,
          arrayGet dwnUrls (randomInt 0 (lengthQ dwnUrls) almostOne) = Some dwnUrl
          /\ dwnUrl ∈ dwnUrls).
Proof.
  apply (getRandomInt_in_bounds nat randomSwing 5 almostOne).
  - lia.
  - vm_compute. intuition discriminate.
Defined.

Example randomInt_almostOne : randomInt 0 (inject_Z 5) almostOne = 4%Z.
Proof. vm_compute. reflexivity. Qed.

Example randomInt_fourFifths : randomInt 0 (inject_Z 5) fourFifths = 4%Z.
Proof. vm_compute. reflexivity. Qed.

(** The rounding at work: in binary64 arithmetic [0.1 * 3] is
    [0.30000000000000004], the number [5404319552844596 / 2^54], one unit in
    the last place above the exact product. *)
Example multiply_tenth_by_three :
  Qred (multiply (mkDouble 3602879701896397 55) 3) = Qred (5404319552844596 # 2 ^ 54).
Proof. vm_compute. reflexivity. Qed.

(** C7 on a server that answers 500. *)
Lemma discovery_fetch_failure_witness :
  exists reason,
    getTechPreviewDwnEndpoints nat fetchServerError randomZero getServices start =
      (Fulfilled [],
       mkRunState 1
         (events start
          ++ [EvFetch wellKnownUrl
                (inr (mkResponse 500 "Internal Server Error"
                        (inl (SyntaxError "Unexpected end of JSON input"))));
              EvConsoleWarn [warnPrefix; reason]])).
Proof.
  apply (discovery_fetch_failure nat fetchServerError randomZero getServices start).
  - reflexivity.
  - right. eexists. split; first reflexivity. right. cbn. lia.
Defined.

(** The warning logged on that server. *)
Example server_error_warning :
  getTechPreviewDwnEndpoints nat fetchServerError randomZero getServices start =
    (Fulfilled [],
     mkRunState 1
       [EvFetch wellKnownUrl
          (inr (mkResponse 500 "Internal Server Error"
                  (inl (SyntaxError "Unexpected end of JSON input"))));
        EvConsoleWarn ["failed to get tech preview dwn endpoints:";
                       "HTTP Error: 500 Internal Server Error"]]).
Proof. vm_compute. reflexivity. Qed.

(** C2: a body that is not JSON, and a document without services. *)
Lemma discovery_failure_propagates_witness :
  fst (getTechPreviewDwnEndpoints nat fetchGarbage randomZero getServices start)
  = Rejected (SyntaxError "Unexpected token < in JSON")
  /\ fst (getTechPreviewDwnEndpoints nat (fetchOk bareDocument) randomZero getServices start)
     = Rejected (TypeError "Cannot use 'in' operator to search for 'serviceEndpoint'").
Proof.
  split.
  - apply (discovery_failure_propagates nat fetchGarbage randomZero getServices start
             (mkResponse 200 "OK" (inl (SyntaxError "Unexpected token < in JSON"))) 1);
      reflexivity.
  - apply (discovery_failure_propagates nat (fetchOk bareDocument) randomZero getServices
             start (mkResponse 200 "OK" (inr bareDocument)) 1) with (didDocument := bareDocument);
      reflexivity.
Defined.

(** C8: the endpoint of the matching service is [null]. *)
Lemma null_endpoint_rejects_witness :
  fst (getTechPreviewDwnEndpoints nat (fetchOk (didDocument JsNull)) randomZero
                                  getServices start)
  = Rejected (TypeError "Cannot read properties of null (reading 'nodes')").
Proof.
  apply (null_endpoint_rejects nat (fetchOk (didDocument JsNull)) randomZero getServices
           start (mkResponse 200 "OK" (inr (didDocument JsNull))) 1 (didDocument JsNull)
           (dwnService JsNull) []); reflexivity.
Defined.

(** ** The further properties on concrete worlds *)

Lemma discovers_down :
  discovers nat (fetchOneUp (listing downNodes)) getServices start downNodes
            (fetchedListing downNodes).
Proof.
  exists (mkResponse 200 "OK" (inr (listing downNodes))), 1, (listing downNodes),
         (dwnService (JsObject (endpointOf downNodes))), [],
         (endpointOf downNodes), (JsString <$> downNodes).
  split_and!; reflexivity.
Qed.

Lemma discovers_up :
  discovers nat (fetchOk (listing upNode)) getServices start upNode (fetchedListing upNode).
Proof.
  exists (mkResponse 200 "OK" (inr (listing upNode))), 1, (listing upNode),
         (dwnService (JsObject (endpointOf upNode))), [],
         (endpointOf upNode), (JsString <$> upNode).
  split_and!; reflexivity.
Qed.

Lemma discovers_none :
  discovers nat (fetchOk (listing [])) getServices start [] (fetchedListing []).
Proof.
  exists (mkResponse 200 "OK" (inr (listing []))), 1, (listing []),
         (dwnService (JsObject (endpointOf []))), [], (endpointOf []), [].
  split_and!; reflexivity.
Qed.

Lemma isArrayBufferSlice_smaller_witness :
  isArrayBufferSlice partialView = true
  <-> (ArrayBufferView.byteLength partialView
       < ArrayBuffer.byteLength (ArrayBufferView.buffer partialView))%N.
Proof.
  apply (isArrayBufferSlice_smaller partialView). vm_compute. discriminate.
Defined.

Example wholeView_not_slice : isArrayBufferSlice wholeView = false.
Proof. reflexivity. Qed.

Lemma typeOfTypeString_tag_witness :
  typeOfTypeString ("[object " +:+ "Uint8Array" +:+ "]") = inr "Uint8Array".
Proof.
  apply (typeOfTypeString_tag "Uint8Array").
  - discriminate.
  - reflexivity.
Defined.

(** A tag that starts with other characters is cut to its first word after
    white space, and an empty tag makes the function throw. *)
Example typeOfTypeString_cut : typeOfTypeString "[object My.Tag x]" = inr "My".
Proof. reflexivity. Qed.

Example typeOfTypeString_empty_tag :
  typeOfTypeString "[object ]" = inl (TypeError "match is not iterable").
Proof. reflexivity. Qed.

(** [getRandomInt(0.5, 3.5)] at the largest number below 1. *)
Lemma getRandomInt_between_witness :
  (Qceiling (1 # 2) <= randomInt (1 # 2) (7 # 2) almostOne < Qfloor (7 # 2))%Z
  /\ ((1 # 2) <= inject_Z (randomInt (1 # 2) (7 # 2) almostOne))%Q
  /\ (inject_Z (randomInt (1 # 2) (7 # 2) almostOne) < (7 # 2))%Q.
Proof.
  apply (getRandomInt_between (1 # 2) (7 # 2) almostOne).
  - vm_compute. discriminate.
  - vm_compute. discriminate.
  - vm_compute. discriminate.
  - vm_compute. reflexivity.
  - vm_compute. intuition discriminate.
Defined.

Example randomInt_between_value : randomInt (1 # 2) (7 # 2) almostOne = 2%Z.
Proof. vm_compute. reflexivity. Qed.

(** [getRandomInt(5, 2)] at 0.8: the product is about -2.4, its floor -3. *)
Lemma getRandomInt_crossed_witness :
  (Qfloor 2 <= randomInt 5 2 fourFifths <= Qceiling 5)%Z.
Proof.
  apply (getRandomInt_crossed 5 2 fourFifths).
  - vm_compute. discriminate.
  - vm_compute. discriminate.
  - vm_compute. discriminate.
  - vm_compute. discriminate.
  - vm_compute. intuition discriminate.
Defined.

Example randomInt_crossed_value : randomInt 5 2 fourFifths = 2%Z.
Proof. vm_compute. reflexivity. Qed.

Example randomInt_equal_bounds : randomInt 3 3 fourFifths = 3%Z.
Proof. vm_compute. reflexivity. Qed.

Lemma getTechPreviewDwnEndpoints_trace_witness :
  exists selected s' response log,
    getTechPreviewDwnEndpoints nat (fetchOneUp (listing threeNodes)) randomSwing
                               getServices start
    = (Fulfilled selected, s')
    /\ events s' = events start ++ EvFetch wellKnownUrl (inr response) :: (log ≫= probeEvents)
    /\ length log <= length threeNodes
    /\ Forall (fun p =>
                 arrayGet threeNodes (randomInt 0 (lengthQ threeNodes) (drawn p))
                 = Some (target p))
              log.
Proof.
  apply (getTechPreviewDwnEndpoints_trace nat (fetchOneUp (listing threeNodes)) randomSwing
           getServices start threeNodes (fetchedListing threeNodes)).
  - apply randomSwing_inRange.
  - apply discovers_three.
Defined.

Lemma getTechPreviewDwnEndpoints_exact_witness :
  exists selected s' log,
    getTechPreviewDwnEndpoints nat (fetchOneUp (listing threeNodes)) randomSwing
                               getServices start
    = (Fulfilled selected, s')
    /\ events s' = events (fetchedListing threeNodes) ++ (log ≫= probeEvents)
    /\ forall dwnUrl,
         dwnUrl ∈ selected
         <-> exists p, p ∈ log /\ target p = dwnUrl /\ healthy (answer p) = true.
Proof.
  apply (getTechPreviewDwnEndpoints_exact nat (fetchOneUp (listing threeNodes)) randomSwing
           getServices start threeNodes (fetchedListing threeNodes)).
  - apply randomSwing_inRange.
  - apply discovers_three.
Defined.

Lemma getTechPreviewDwnEndpoints_stops_witness :
  exists selected s' log,
    getTechPreviewDwnEndpoints nat (fetchOk (listing fiveNodes)) randomSwing getServices start
    = (Fulfilled selected, s')
    /\ events s' = events (fetchedListing fiveNodes) ++ (log ≫= probeEvents)
    /\ selected = foldl collect [] log
    /\ (forall k, k < length log ->
          length (foldl collect [] (take k log)) < Nat.min (length fiveNodes) 2)
    /\ (length selected < Nat.min (length fiveNodes) 2 -> length log = length fiveNodes).
Proof.
  apply (getTechPreviewDwnEndpoints_stops nat (fetchOk (listing fiveNodes)) randomSwing
           getServices start fiveNodes (fetchedListing fiveNodes)).
  - apply randomSwing_inRange.
  - apply discovers_five.
Defined.

(** On five healthy nodes and swinging draws the call stops after the two
    probes that found two nodes. *)
Example two_probes_suffice :
  fst (getTechPreviewDwnEndpoints nat (fetchOk (listing fiveNodes)) randomSwing
                                  getServices start)
  = Fulfilled ["https://dwn1.example"; "https://dwn5.example"]
  /\ fetched (events (snd (getTechPreviewDwnEndpoints
                             nat (fetchOk (listing fiveNodes)) randomSwing getServices start)))
     = [wellKnownUrl; "https://dwn1.example/health"; "https://dwn5.example/health"].
Proof. split; vm_compute; reflexivity. Qed.

Lemma getTechPreviewDwnEndpoints_none_healthy_witness :
  exists s' log,
    getTechPreviewDwnEndpoints nat (fetchOneUp (listing downNodes)) randomSwing
                               getServices start
    = (Fulfilled [], s')
    /\ events s' = events (fetchedListing downNodes) ++ (log ≫= probeEvents)
    /\ length log = length downNodes.
Proof.
  apply (getTechPreviewDwnEndpoints_none_healthy nat (fetchOneUp (listing downNodes))
           randomSwing getServices start downNodes (fetchedListing downNodes)).
  - apply randomSwing_inRange.
  - apply discovers_down.
  - intros dwnUrl w Hin.
    apply elem_of_cons in Hin as [-> | Hin]; first reflexivity.
    apply list_elem_of_singleton in Hin as ->. reflexivity.
Defined.

Lemma getTechPreviewDwnEndpoints_no_nodes_witness :
  getTechPreviewDwnEndpoints nat (fetchOk (listing [])) randomSwing getServices start
  = (Fulfilled [], fetchedListing []).
Proof.
  apply (getTechPreviewDwnEndpoints_no_nodes nat (fetchOk (listing [])) randomSwing
           getServices start (fetchedListing [])).
  apply discovers_none.
Defined.

Lemma getTechPreviewDwnEndpoints_single_node_witness :
  exists s' r healthCheck,
    getTechPreviewDwnEndpoints nat (fetchOk (listing upNode)) randomSwing getServices start
    = (Fulfilled ["https://dwn1.example"], s')
    /\ events s'
       = events (fetchedListing upNode)
         ++ [EvMathRandom r; EvFetch ("https://dwn1.example" +:+ "/health") (inr healthCheck)]
    /\ ok healthCheck = true.
Proof.
  apply (getTechPreviewDwnEndpoints_single_node nat (fetchOk (listing upNode)) randomSwing
           getServices start "https://dwn1.example" (fetchedListing upNode)).
  - apply randomSwing_inRange.
  - apply discovers_up.
  - apply fetchOk_allHealthy.
Defined.

Lemma getTechPreviewDwnEndpoints_same_draws_witness :
  exists selected s',
    getTechPreviewDwnEndpoints nat (fetchOk (listing fiveNodes)) randomZero getServices start
    = (Fulfilled selected, s')
    /\ length selected <= 1
    /\ forall dwnUrl, dwnUrl ∈ selected -> arrayGet fiveNodes 0 = Some dwnUrl.
Proof.
  apply (getTechPreviewDwnEndpoints_same_draws nat (fetchOk (listing fiveNodes)) randomZero
           getServices start fiveNodes (fetchedListing fiveNodes) 0).
  - apply randomZero_inRange.
  - apply discovers_five.
  - intros w. vm_compute. reflexivity.
Defined.

Lemma discovery_warning_witness :
  getTechPreviewDwnEndpoints nat fetchServerError randomZero getServices start =
    (Fulfilled [],
     mkRunState 1
       (events start
        ++ [EvFetch wellKnownUrl
              (inr (mkResponse 500 "Internal Server Error"
                      (inl (SyntaxError "Unexpected end of JSON input"))));
            EvConsoleWarn
              ["failed to get tech preview dwn endpoints:";
               "HTTP Error: " +:+ pretty 500%N +:+ " " +:+ "Internal Server Error"]])).
Proof.
  apply (discovery_warning nat fetchServerError randomZero getServices start
           (inr (mkResponse 500 "Internal Server Error"
                   (inl (SyntaxError "Unexpected end of JSON input")))) 1).
  - reflexivity.
  - reflexivity.
Defined.

Lemma missing_endpoint_selects_nothing_witness :
  getTechPreviewDwnEndpoints nat (fetchOk documentWithoutEndpoint) randomZero getServices start
  = (Fulfilled [],
     mkRunState 1
       (events start
        ++ [EvFetch wellKnownUrl (inr (mkResponse 200 "OK" (inr documentWithoutEndpoint)))])).
Proof.
  apply (missing_endpoint_selects_nothing nat (fetchOk documentWithoutEndpoint) randomZero
           getServices start (mkResponse 200 "OK" (inr documentWithoutEndpoint)) 1
           documentWithoutEndpoint serviceWithoutEndpoint []); reflexivity.
Defined.

(** An endpoint that is a string, as a DID document may have it. *)
Lemma unusable_endpoint_selects_nothing_witness :
  getTechPreviewDwnEndpoints nat (fetchOk (didDocument (JsString "https://dwn1.example")))
                             randomZero getServices start
  = (Fulfilled [],
     mkRunState 1
       (events start
        ++ [EvFetch wellKnownUrl
              (inr (mkResponse 200 "OK"
                      (inr (didDocument (JsString "https://dwn1.example")))))])).
Proof.
  apply (unusable_endpoint_selects_nothing nat
           (fetchOk (didDocument (JsString "https://dwn1.example"))) randomZero getServices
           start (mkResponse 200 "OK" (inr (didDocument (JsString "https://dwn1.example")))) 1
           (didDocument (JsString "https://dwn1.example"))
           (dwnService (JsString "https://dwn1.example")) []
           (JsString "https://dwn1.example"));
    try reflexivity; try discriminate.
Defined.

Lemma getTechPreviewDwnEndpoints_rejects_before_probing_witness :
  exists response,
    fetchGarbage wellKnownUrl (world start)
    = (inr response,
       world (mkRunState 1
                [EvFetch wellKnownUrl
                   (inr (mkResponse 200 "OK"
                           (inl (SyntaxError "Unexpected token < in JSON"))))]))
    /\ ok response = true
    /\ events (mkRunState 1
                 [EvFetch wellKnownUrl
                    (inr (mkResponse 200 "OK"
                            (inl (SyntaxError "Unexpected token < in JSON"))))])
       = events start ++ [EvFetch wellKnownUrl (inr response)].
Proof.
  apply (getTechPreviewDwnEndpoints_rejects_before_probing nat fetchGarbage randomZero
           getServices start (SyntaxError "Unexpected token < in JSON")).
  - apply randomZero_inRange.
  - vm_compute. reflexivity.
Defined.

End Checks.
